(** * Query resolution and resilient retrieval of [intelligent_scraper.py]

    A shallow embedding of [ShorthornApiScraper.search] and
    [ShorthornApiScraper._call_api] together with the location registry
    [LOCATION_DATA], and the properties of the pipeline that follow from
    the code.

    Modelling conventions.
    - Python [str] values are [string]s, texts in UTF-8; [str.lower]
      folds what Python folds into ASCII (the letters [A]..[Z], the
      Kelvin sign and the dotted capital I) and leaves every other
      character alone.
    - Python dictionaries are finite maps ([gmap string _]).
    - The three collaborators the code talks to (the language model behind
      [AIProcessor], the HTTP endpoint behind [requests.get] and the HTML
      table reader [pandas.read_html]) are oracles collected in a [World];
      every call to the endpoint or to the table reader is recorded in a
      trace of [event]s, in the order the calls are made.
    - Python exceptions are values of [pyexn]; a computation either returns
      or raises ([outcome]).  Only subclasses of [Exception] are modelled,
      the ones an [except Exception] clause catches. *)

From Stdlib Require Import ZArith Ascii String DecimalString.
From stdpp Require Import base option list strings gmap.

Set Warnings "-register-all".

Local Open Scope string_scope.
Local Open Scope Z_scope.
Local Open Scope list_scope.

(** ** Strings *)

Module Str.

(** [ch.lower()] for one character. *)
Definition lower_ascii (c : ascii) : ascii :=
  let n := Ascii.N_of_ascii c in
  if ((65 <=? n) && (n <=? 90))%N then Ascii.ascii_of_N (n + 32) else c.

(** The character has this code. *)
Definition is_byte (n : N) (c : ascii) : bool := (Ascii.N_of_ascii c =? n)%N.

(** [s.lower()], on a text in UTF-8.  The letters [A]..[Z] are folded.  Of
    the characters outside ASCII, two have ASCII in their lower case and
    are folded as Python folds them: the Kelvin sign U+212A (the bytes
    226, 132, 170) becomes [k], and U+0130 (the bytes 196, 176) becomes
    [i] followed by U+0307 (the bytes 204, 135).  Every other character
    outside ASCII stays outside ASCII in Python and is left as it is
    here, so that a comparison of the result with an ASCII text, and a
    search for an ASCII text in it, come out as in Python. *)
Fixpoint lower (s : string) : string :=
  match s with
  | EmptyString => EmptyString
  | String c t =>
      match t with
      | String c1 t1 =>
          if is_byte 196 c && is_byte 176 c1 then
            String "i" (String (Ascii.ascii_of_N 204) (String (Ascii.ascii_of_N 135) (lower t1)))
          else
            match t1 with
            | String c2 t2 =>
                if is_byte 226 c && is_byte 132 c1 && is_byte 170 c2 then
                  String "k" (lower t2)
                else String (lower_ascii c) (lower t)
            | EmptyString => String (lower_ascii c) (lower t)
            end
      | EmptyString => String (lower_ascii c) (lower t)
      end
  end.

(** [hay.startswith(needle)]. *)
Fixpoint starts_with (needle hay : string) : bool :=
  match needle, hay with
  | EmptyString, _ => true
  | String _ _, EmptyString => false
  | String a n', String b h' => if Ascii.eqb a b then starts_with n' h' else false
  end.

(** [needle in hay] for two [str] values. *)
Fixpoint contains (needle hay : string) : bool :=
  starts_with needle hay ||
  match hay with
  | EmptyString => false
  | String _ t => contains needle t
  end.

(** [any(p in hay for p in patterns)]. *)
Definition any_in (patterns : list string) (hay : string) : bool :=
  existsb (fun p => contains p hay) patterns.

(** [str(n)] for a Python [int]. *)
Definition of_Z (n : Z) : string := NilZero.string_of_int (Z.to_int n).

End Str.

(** ** Python values and exceptions *)

(** The values [json.loads] can produce.  Of a [float] only its truth value
    is observable by the code below, so that is all [JFloat] records. *)
Inductive json :=
  | JNull
  | JBool (b : bool)
  | JInt (n : Z)
  | JFloat (nonzero : bool)
  | JStr (s : string)
  | JArr (items : list json)
  | JObj (fields : gmap string json).

(** The exception classes the code distinguishes, each with its message:
    [requests.exceptions.RequestException] (and its subclasses, such as
    [HTTPError]), the two an ill-shaped reply provokes in [search], and any
    other subclass of [Exception]. *)
Inductive pyexn :=
  | RequestException (msg : string)
  | AttributeError (msg : string)
  | TypeError (msg : string)
  | OtherException (msg : string).

(** [str(e)]. *)
Definition exn_str (e : pyexn) : string :=
  match e with
  | RequestException msg | AttributeError msg | TypeError msg
  | OtherException msg => msg
  end.

Definition is_request_exception (e : pyexn) : bool :=
  match e with RequestException _ => true | _ => false end.

Inductive outcome (A : Type) :=
  | Returns (a : A)
  | Raises (e : pyexn).
Arguments Returns {A} a.
Arguments Raises {A} e.

Module Py.

(** [type(v).__name__]. *)
Definition type_name (v : json) : string :=
  match v with
  | JNull => "NoneType"
  | JBool _ => "bool"
  | JInt _ => "int"
  | JFloat _ => "float"
  | JStr _ => "str"
  | JArr _ => "list"
  | JObj _ => "dict"
  end.

(** [bool(v)]: the test behind [if v], [not v] and [v or ...]. *)
Definition truthy (v : json) : bool :=
  match v with
  | JNull => false
  | JBool b => b
  | JInt n => negb (n =? 0)
  | JFloat nonzero => nonzero
  | JStr s => negb (String.eqb s "")
  | JArr items => match items with [] => false | _ => true end
  | JObj fields => negb (bool_decide (fields = ∅))
  end.

Definition no_attribute (v : json) (attr : string) : pyexn :=
  AttributeError ("'" +:+ type_name v +:+ "' object has no attribute '" +:+ attr +:+ "'").

(** [key in v] for a [str] key: key membership on a dict, substring on a
    str, element equality on a list, [TypeError] on anything else. *)
Definition contains (key : string) (v : json) : outcome bool :=
  match v with
  | JObj fields => Returns (bool_decide (is_Some (fields !! key)))
  | JStr s => Returns (Str.contains key s)
  | JArr items =>
      Returns (existsb (fun x => match x with JStr s => String.eqb s key | _ => false end) items)
  | _ => Raises (TypeError ("argument of type '" +:+ type_name v +:+ "' is not iterable"))
  end.

(** [v.get(key)]: only a dict has the method; a missing key gives [None]. *)
Definition get (v : json) (key : string) : outcome json :=
  match v with
  | JObj fields => Returns (default JNull (fields !! key))
  | _ => Raises (no_attribute v "get")
  end.

(** The receiver of [v.lower()]: only a str has the method. *)
Definition lower_receiver (v : json) : outcome string :=
  match v with
  | JStr s => Returns s
  | _ => Raises (no_attribute v "lower")
  end.

End Py.

(** ** The location registry *)

Record LocationEntry := {
  api_code : string;
  provinces : gmap string string
}.

Definition LOCATION_DATA : gmap string LocationEntry :=
  list_to_map [
    ("united states",
     {| api_code := "United States";
        provinces := list_to_map [
          ("alabama", "AL"); ("arizona", "AZ"); ("arkansas", "AR"); ("california", "CA");
          ("colorado", "CO"); ("delaware", "DE"); ("florida", "FL"); ("georgia", "GA");
          ("idaho", "ID"); ("illinois", "IL"); ("indiana", "IN"); ("iowa", "IA");
          ("kansas", "KS"); ("kentucky", "KY"); ("louisiana", "LA"); ("maine", "ME");
          ("maryland", "MD"); ("michigan", "MI"); ("minnesota", "MN"); ("mississippi", "MS");
          ("missouri", "MO"); ("montana", "MT"); ("nebraska", "NE"); ("nevada", "NV");
          ("new hampshire", "NH"); ("new jersey", "NJ"); ("new mexico", "NM"); ("new york", "NY");
          ("north carolina", "NC"); ("north dakota", "ND"); ("ohio", "OH"); ("oklahoma", "OK");
          ("oregon", "OR"); ("pennsylvania", "PA"); ("south carolina", "SC"); ("south dakota", "SD");
          ("tennessee", "TN"); ("texas", "TX"); ("utah", "UT"); ("virginia", "VA");
          ("washington", "WA"); ("wisconsin", "WI"); ("wyoming", "WY")
        ] |});
    ("canada",
     {| api_code := "Canada";
        provinces := list_to_map [
          ("alberta", "AB"); ("ontario", "ON"); ("quebec", "QC"); ("saskatchewan", "SK")
        ] |});
    ("argentina",
     {| api_code := "Argentina";
        provinces := ∅ |})
  ].

(** ** The outside world and the effects of a run *)

(** The query parameters handed to [requests.get]: the dict with keys
    ['l'] and ['v']. *)
Record Params := { param_l : string; param_v : json }.

(** What the code reads of a [requests.Response]. *)
Record Response := {
  status_code : Z;
  reason : string;
  url : string;
  text : string
}.

(** A column label or a cell of a data frame: text, an integer, a missing
    value (the float NaN), or any other object, kept as the text [str]
    gives for it. *)
Inductive scalar :=
  | SStr (s : string)
  | SInt (n : Z)
  | SNaN
  | SObj (repr : string).

(** A [pandas.DataFrame]: its column labels and its rows of cells. *)
Record DataFrame := {
  columns : list scalar;
  values : list (list scalar)
}.

(** A data frame is a rectangle: each row has one cell per column. *)
Definition rectangular (df : DataFrame) : Prop :=
  Forall (fun row => length row = length (columns df)) (values df).

Inductive event :=
  | EvGet (url : string) (params : Params)
  | EvReadHtml (html : string) (flavor : option string).

Record World := {
  (** [AIProcessor.model], when the key was there and the client started:
      for a command, what the [try] body of [interpret_command] comes to,
      the decoded reply of the model or the exception on the way. *)
  ai_model : option (string -> outcome json);
  (** [requests.get(url, params=params)]. *)
  http_get : string -> Params -> outcome Response;
  (** [pd.read_html(StringIO(html), flavor=flavor)], and
      [pd.read_html(StringIO(html))] at [None]. *)
  html_tables : string -> option string -> outcome (list DataFrame);
  (** The pandas installed: whether [DataFrame.astype(str)] keeps a
      missing value as it is (pandas 3 and later) or turns it into the
      text ["nan"] (earlier versions). *)
  keeps_missing : bool
}.

(** A computation with a trace of the calls made so far. *)
Definition Eff (A : Type) : Type := list event -> outcome A * list event.

#[global] Instance Eff_ret : MRet Eff := fun A a tr => (Returns a, tr).

#[global] Instance Eff_bind : MBind Eff := fun A B f m tr =>
  match m tr with
  | (Returns a, tr') => f a tr'
  | (Raises e, tr') => (Raises e, tr')
  end.

Definition lift {A} (o : outcome A) : Eff A := fun tr => (o, tr).

Definition emit (ev : event) : Eff unit := fun tr => (Returns tt, tr ++ [ev]).

(** [try: m  except Exception as e: h e]. *)
Definition try_except {A} (m : Eff A) (h : pyexn -> Eff A) : Eff A := fun tr =>
  match m tr with
  | (Returns a, tr') => (Returns a, tr')
  | (Raises e, tr') => h e tr'
  end.

(** A run from the empty trace. *)
Definition run {A} (m : Eff A) : outcome A * list event := m [].

Definition requests_get (w : World) (url : string) (params : Params) : Eff Response :=
  _ ← emit (EvGet url params); lift (http_get w url params).

(** [Response.raise_for_status] of the requests library: an [HTTPError]
    (a [RequestException]) for a status from 400 to 599, nothing
    otherwise. *)
Definition raise_for_status (r : Response) : outcome unit :=
  let s := status_code r in
  if (400 <=? s) && (s <? 500) then
    Raises (RequestException
      (Str.of_Z s +:+ " Client Error: " +:+ reason r +:+ " for url: " +:+ url r))
  else if (500 <=? s) && (s <? 600) then
    Raises (RequestException
      (Str.of_Z s +:+ " Server Error: " +:+ reason r +:+ " for url: " +:+ url r))
  else Returns tt.

Definition pd_read_html (w : World) (html : string) (flavor : option string)
  : Eff (list DataFrame) :=
  _ ← emit (EvReadHtml html flavor); lift (html_tables w html flavor).

(** [str(x)]. *)
Definition scalar_str (x : scalar) : string :=
  match x with
  | SStr s => s
  | SInt n => Str.of_Z n
  | SNaN => "nan"
  | SObj repr => repr
  end.

(** A cell of the data handed back: a text, or the float NaN. *)
Inductive cell :=
  | Text (s : string)
  | NaN.

(** A cell after [DataFrame.astype(str)]: the text [str] gives, but for a
    missing value, which the pandas that keeps missing values leaves as
    it is. *)
Definition astype_str (keeps : bool) (x : scalar) : cell :=
  match x with
  | SNaN => if keeps then NaN else Text "nan"
  | _ => Text (scalar_str x)
  end.

(** What [search] hands back: the dict [{"header": .., "data": ..}], or
    the dict [{"error": ..}] with or without a ["details"] entry. *)
Inductive result :=
  | Table (header : list string) (data : list (list cell))
  | Error (error : string) (details : option json).

(** ** [AIProcessor.interpret_command] *)

Definition interpret_command (w : World) (user_command : string) : json :=
  match ai_model w with
  | None => JObj {[ "error" := JStr "AI model not available." ]}
  | Some model =>
      match model user_command with
      | Returns reply => reply
      | Raises e =>
          JObj {[ "error" := JStr ("Failed to parse AI response: " +:+ exn_str e) ]}
      end
  end.

(** ** [ShorthornApiScraper._call_api] *)

Definition base_url : string :=
  "https://shorthorn.digitalbeef.com/modules/DigitalBeef-Landing/ajax/search_results_ranch.php".

Definition no_results_indicators : list string := [
  "No records found matching your criteria";
  "No records found";
  "No results found";
  "0 records found"
].

Definition parsers : list string := ["html5lib"; "bs4"; "lxml"].

Definition empty_patterns : list string :=
  ["no data"; "empty"; "no results"; "not found"].

(** [str(parse_error)], where [parse_error] starts as [None]. *)
Definition parse_error_str (parse_error : option pyexn) : string :=
  match parse_error with
  | None => "None"
  | Some e => exn_str e
  end.

(** The loop over [parsers]: the first flavor that does not raise sets
    [df_list] and breaks; a flavor that raises sets [parse_error] and the
    loop continues.  The result is the pair [(df_list, parse_error)]. *)
Fixpoint try_parsers (w : World) (html_content : string) (ps : list string)
    (parse_error : option pyexn) : Eff (option (list DataFrame) * option pyexn) :=
  match ps with
  | [] => mret (None, parse_error)
  | parser :: rest =>
      try_except
        (df_list ← pd_read_html w html_content (Some parser);
         mret (Some df_list, parse_error))
        (fun e => try_parsers w html_content rest (Some e))
  end.

(** The attempt without a flavor, made when [df_list is None]. *)
Definition generic_attempt (w : World) (html_content : string)
    (df_list : option (list DataFrame)) (parse_error : option pyexn)
  : Eff (option (list DataFrame) * option pyexn) :=
  match df_list with
  | None =>
      try_except
        (df_list ← pd_read_html w html_content None;
         mret (Some df_list, parse_error))
        (fun e => mret (None, Some e))
  | Some _ => mret (df_list, parse_error)
  end.

Definition _call_api (w : World) (params : Params) : Eff result :=
  try_except
    (response ← requests_get w base_url params;
     _ ← lift (raise_for_status response);
     let html_content := text response in
     if Str.any_in no_results_indicators html_content then
       mret (Table [] [])
     else
       '(df_list, parse_error) ← try_parsers w html_content parsers None;
       '(df_list, parse_error) ← generic_attempt w html_content df_list parse_error;
       match df_list with
       | None | Some [] =>
           let html_lower := Str.lower html_content in
           if Str.any_in empty_patterns html_lower then
             mret (Table [] [])
           else
             mret (Error ("Gagal mem-parsing tabel dari respons API: "
                          +:+ parse_error_str parse_error) None)
       | Some (results_df :: _) =>
           let header := map scalar_str (columns results_df) in
           let data := map (map (astype_str (keeps_missing w))) (values results_df) in
           mret (Table header data)
       end)
    (fun e =>
       if is_request_exception e then
         mret (Error ("Gagal menghubungi API: " +:+ exn_str e) None)
       else
         mret (Error ("Error tidak terduga: " +:+ exn_str e) None)).

(** ** [ShorthornApiScraper.search] *)

(** The location part of [search]: [inl] is an early [return] of an error
    dict, [inr] the value of [params['l']] when the code reaches the call
    of [_call_api]. *)
Definition resolve_location (country province : json) : Eff (result + string) :=
  if Py.truthy country then
    c ← lift (Py.lower_receiver country);
    match LOCATION_DATA !! Str.lower c with
    | None => mret (inl (Error ("Negara tidak dikenal: " +:+ c) None))
    | Some country_data =>
        let location_string := api_code country_data in
        if Py.truthy province then
          p ← lift (Py.lower_receiver province);
          match provinces country_data !! Str.lower p with
          | Some province_code =>
              if String.eqb province_code "" then
                mret (inl (Error ("Provinsi/Negara Bagian tidak dikenal '" +:+ p
                                  +:+ "' untuk " +:+ c) None))
              else mret (inr (location_string +:+ "|" +:+ province_code))
          | None =>
              mret (inl (Error ("Provinsi/Negara Bagian tidak dikenal '" +:+ p
                                +:+ "' untuk " +:+ c) None))
          end
        else mret (inr (location_string +:+ "|"))
    end
  else mret (inr "").

Definition search (w : World) (command : string) : Eff result :=
  let parsed_query := interpret_command w command in
  failed ← (if negb (Py.truthy parsed_query) then mret true
            else lift (Py.contains "error" parsed_query));
  if (failed : bool) then
    details ← lift (Py.get parsed_query "error");
    mret (Error "Gagal menafsirkan perintah." (Some details))
  else
    name ← lift (Py.get parsed_query "name");
    let v := if Py.truthy name then name else JStr "" in
    country ← lift (Py.get parsed_query "country");
    province ← lift (Py.get parsed_query "province");
    resolved ← resolve_location country province;
    match resolved with
    | inl early => mret early
    | inr l => _call_api w {| param_l := l; param_v := v |}
    end.

(** ** Notions used to state the properties *)

(** [needle] occurs in [hay]. *)
Definition substring (needle hay : string) : Prop :=
  exists pre post, hay = pre +:+ needle +:+ post.

(** The query object the prompt of [interpret_command] asks the model for:
    a dict with the keys ["country"], ["province"] and ["name"], each a
    string or [null]. *)
Record InterpretedQuery := {
  country : option string;
  province : option string;
  name : option string
}.

Definition json_of_field (field : option string) : json :=
  match field with
  | Some s => JStr s
  | None => JNull
  end.

Definition json_of_query (q : InterpretedQuery) : json :=
  JObj (<[ "country" := json_of_field (country q) ]>
        (<[ "province" := json_of_field (province q) ]>
         {[ "name" := json_of_field (name q) ]})).

(** The reply [parsed_query] reads as the query [q]: it passes the guard of
    [search] (it is truthy and has no ["error"] in it) and its three fields,
    read with [get], are those of [q].  Such a reply is a dict; a field of
    [q] is absent when the key is missing or its value is [null]. *)
Definition interpreted (parsed_query : json) (q : InterpretedQuery) : Prop :=
  Py.truthy parsed_query = true
  /\ Py.contains "error" parsed_query = Returns false
  /\ Py.get parsed_query "country" = Returns (json_of_field (country q))
  /\ Py.get parsed_query "province" = Returns (json_of_field (province q))
  /\ Py.get parsed_query "name" = Returns (json_of_field (name q)).

(** The parameter sets of the requests sent, in order. *)
Definition http_calls (tr : list event) : list Params :=
  omap (fun ev => match ev with EvGet _ params => Some params | _ => None end) tr.

(** The table reader raises on this input. *)
Definition read_fails (w : World) (html : string) (flavor : option string) : Prop :=
  exists e, html_tables w html flavor = Raises e.

(** What the code relies on in an entry of the registry: the key is its
    own lowering and is not empty, and so is every province key; no
    province code is empty. *)
Definition entry_well_formed (key : string) (entry : LocationEntry) : Prop :=
  Str.lower key = key /\ key <> "" /\
  map_Forall (fun p code => Str.lower p = p /\ p <> "" /\ code <> "") (provinces entry).

(** A world for examples: the model answers [reply] to every command, the
    endpoint answers [response] to every request, and the table reader
    answers by [tables]. *)
Definition sample_world (reply : outcome json) (response : outcome Response)
    (tables : option string -> outcome (list DataFrame)) : World :=
  {| ai_model := Some (fun _ => reply);
     http_get := fun _ _ => response;
     html_tables := fun _ => tables;
     keeps_missing := false |}.

Definition sample_response (status : Z) (body : string) : Response :=
  {| status_code := status; reason := "-"; url := base_url; text := body |}.

Definition no_tables : option string -> outcome (list DataFrame) :=
  fun _ => Raises (OtherException "No tables found").

(** How the table-reading phase of [_call_api] can go on a body: the
    attempts made, in order, and the [df_list] they leave.  Either the
    parsers before some parser all raise and that parser returns, or all
    parsers raise and the attempt without a flavor returns or raises. *)
Inductive extraction (w : World) (html : string)
  : list (option string) -> option (list DataFrame) -> Prop :=
  | extraction_by_parser pre f post dfs :
      parsers = pre ++ f :: post ->
      Forall (fun g => read_fails w html (Some g)) pre ->
      html_tables w html (Some f) = Returns dfs ->
      extraction w html (Some <$> (pre ++ [f])) (Some dfs)
  | extraction_generic dfs :
      Forall (fun g => read_fails w html (Some g)) parsers ->
      html_tables w html None = Returns dfs ->
      extraction w html ((Some <$> parsers) ++ [None]) (Some dfs)
  | extraction_nothing :
      Forall (fun g => read_fails w html (Some g)) parsers ->
      read_fails w html None ->
      extraction w html ((Some <$> parsers) ++ [None]) None.

(** The last step of [_call_api]: the dict returned for a [df_list] and a
    [parse_error]. *)
Definition shaped (keeps : bool) (html_content : string)
    (df_list : option (list DataFrame)) (parse_error : option pyexn) : result :=
  match df_list with
  | None | Some [] =>
      if Str.any_in empty_patterns (Str.lower html_content) then Table [] []
      else Error ("Gagal mem-parsing tabel dari respons API: "
                  +:+ parse_error_str parse_error) None
  | Some (results_df :: _) =>
      Table (map scalar_str (columns results_df))
            (map (map (astype_str keeps)) (values results_df))
  end.

#[local] Instance entry_well_formed_dec key entry :
  Decision (entry_well_formed key entry).
Proof. unfold entry_well_formed. apply _. Defined.

(** [search] hands [params] to [_call_api], and the one request of the run
    carries them. *)
Definition searches_with (w : World) (command : string) (params : Params) : Prop :=
  run (search w command) = run (_call_api w params)
  /\ http_calls (run (search w command)).2 = [params].

(** Sample inputs. *)

Definition sample_params : Params := {| param_l := "Canada|AB"; param_v := JStr "" |}.

Definition sample_frame : DataFrame :=
  {| columns := [SStr "Name"; SStr "City"; SInt 2];
     values := [[SStr "Circle M"; SStr "Calgary"; SInt 7];
                [SStr "Creek Farm"; SObj "nan"; SInt (-1)]] |}.

Definition other_frame : DataFrame :=
  {| columns := [SInt 0]; values := [[SStr "x"]] |}.

(** Only the last of the three parsers finds the tables. *)
Definition lxml_only : option string -> outcome (list DataFrame) :=
  fun flavor =>
    match flavor with
    | Some "lxml" => Returns [sample_frame; other_frame]
    | _ => Raises (OtherException "No tables found")
    end.

Definition sentinel_page : string :=
  "<p>No records found</p><table><tr><td>x</td></tr></table>".

(** A table whose one row has an empty cell, read by a pandas that keeps
    missing values. *)
Definition frame_with_gap : DataFrame :=
  {| columns := [SStr "Name"; SStr "City"];
     values := [[SStr "Circle M"; SNaN]] |}.

Definition pandas3_world : World :=
  {| ai_model := None;
     http_get := fun _ _ => Returns (sample_response 200 "<table>..</table>");
     html_tables := fun _ _ => Returns [frame_with_gap];
     keeps_missing := true |}.

(** The endpoint answers with status 304 and a sentinel in the body. *)
Definition world_304 : World :=
  sample_world (Returns JNull) (Returns (sample_response 304 "No records found")) no_tables.

(** The endpoint cannot be reached. *)
Definition world_unreachable : World :=
  {| ai_model := None;
     http_get := fun _ _ => Raises (RequestException "Connection refused");
     html_tables := fun _ => no_tables;
     keeps_missing := false |}.

(** The model answers every command with the query object of [q]; the
    endpoint has no records. *)
Definition query_world (q : InterpretedQuery) : World :=
  sample_world (Returns (json_of_query q))
    (Returns (sample_response 200 "No records found")) no_tables.

Definition query (c p n : option string) : InterpretedQuery :=
  {| country := c; province := p; name := n |}.

(** The entry of the registry under a key. *)
Definition entry_of (key : string) : LocationEntry :=
  default {| api_code := ""; provinces := ∅ |} (LOCATION_DATA !! key).

(** ** More of the source *)

(** *** The text operations of [interpret_command] *)

Module Text.

(** [ch.isspace()] for an ASCII character: tab, line feed, vertical tab,
    form feed, carriage return, the separators 28 to 31 and the space. *)
Definition is_space (c : ascii) : bool :=
  let n := Ascii.N_of_ascii c in
  (((9 <=? n) && (n <=? 13)) || ((28 <=? n) && (n <=? 32)))%N.

(** [ch.isspace()] for a character of two bytes in UTF-8: U+0085 (the
    bytes 194, 133) and U+00A0 (the bytes 194, 160). *)
Definition is_space2 (c c1 : ascii) : bool :=
  Str.is_byte 194 c && (Str.is_byte 133 c1 || Str.is_byte 160 c1).

(** [ch.isspace()] for a character of three bytes in UTF-8: U+1680 (225,
    154, 128), U+2000 to U+200A (226, 128, 128 to 138), U+2028, U+2029
    and U+202F (226, 128, then 168, 169 or 175), U+205F (226, 129, 159)
    and U+3000 (227, 128, 128).  No character of four bytes is white
    space. *)
Definition is_space3 (c c1 c2 : ascii) : bool :=
  let n := Ascii.N_of_ascii c2 in
  (Str.is_byte 225 c && Str.is_byte 154 c1 && Str.is_byte 128 c2)
  || (Str.is_byte 226 c && Str.is_byte 128 c1
      && (((128 <=? n) && (n <=? 138)) || (n =? 168) || (n =? 169) || (n =? 175))%N)
  || (Str.is_byte 226 c && Str.is_byte 129 c1 && Str.is_byte 159 c2)
  || (Str.is_byte 227 c && Str.is_byte 128 c1 && Str.is_byte 128 c2).

(** [s.lstrip()], on a text in UTF-8: the white-space characters at the
    head are dropped, whatever their width. *)
Fixpoint lstrip (s : string) : string :=
  match s with
  | EmptyString => EmptyString
  | String c t =>
      if is_space c then lstrip t
      else
        match t with
        | String c1 t1 =>
            if is_space2 c c1 then lstrip t1
            else
              match t1 with
              | String c2 t2 => if is_space3 c c1 c2 then lstrip t2 else s
              | EmptyString => s
              end
        | EmptyString => s
        end
  end.

(** Every character of the text, in UTF-8, is a white-space character. *)
Fixpoint all_space (s : string) : bool :=
  match s with
  | EmptyString => true
  | String c t =>
      if is_space c then all_space t
      else
        match t with
        | String c1 t1 =>
            if is_space2 c c1 then all_space t1
            else
              match t1 with
              | String c2 t2 => if is_space3 c c1 c2 then all_space t2 else false
              | EmptyString => false
              end
        | EmptyString => false
        end
  end.

(** [s.rstrip()], on a text in UTF-8: the text is cut where its rest is
    white space only, which is where the longest white end begins. *)
Fixpoint rstrip (s : string) : string :=
  match s with
  | EmptyString => EmptyString
  | String c t => if all_space s then EmptyString else String c (rstrip t)
  end.

(** [s.strip()]. *)
Definition strip (s : string) : string := rstrip (lstrip s).

(** [s.replace(old, new)] for a non-empty [old], read from the left: at an
    occurrence of [old] the text [new] is put out and the rest of the
    occurrence is skipped; [skip] counts the characters still to skip. *)
Fixpoint replace_from (old new : string) (skip : nat) (s : string) : string :=
  match s with
  | EmptyString => EmptyString
  | String c t =>
      match skip with
      | S k => replace_from old new k t
      | O =>
          if Str.starts_with old s then
            new +:+ replace_from old new (String.length old - 1) t
          else String c (replace_from old new 0 t)
      end
  end.

(** [s.replace("", new)]: [new] before every character and at the end. *)
Fixpoint interleave (new s : string) : string :=
  match s with
  | EmptyString => new
  | String c t => new +:+ String c (interleave new t)
  end.

(** [s.replace(old, new)]. *)
Definition replace (old new s : string) : string :=
  if String.eqb old "" then interleave new s else replace_from old new 0 s.

Definition fence : string := "```".
Definition json_fence : string := "```json".

(** [response.text.strip().replace("```json", "").replace("```", "")]. *)
Definition clean_response (text : string) : string :=
  replace fence "" (replace json_fence "" (strip text)).

End Text.

(** *** [AIProcessor.__init__] and [ShorthornApiScraper.__init__] *)

(** [a or b] for two values that are [None] or a string. *)
Definition or_else (a b : option string) : option string :=
  match a with
  | Some (String _ _) => a
  | _ => b
  end.

(** [AIProcessor.__init__]: the value left in [self.model].  [getenv] is
    [os.getenv('GOOGLE_API_KEY')] and [start] the body of the [try]:
    importing the client, configuring it with the key and making the
    model. *)
Definition AIProcessor_init {M : Type} (api_key getenv : option string)
    (start : string -> outcome M) : option M :=
  match or_else api_key getenv with
  | Some (String c k) =>
      match start (String c k) with
      | Returns model => Some model
      | Raises _ => None
      end
  | _ => None
  end.

(** [ShorthornApiScraper.__init__]: the scraper makes its [AIProcessor]
    without a key argument. *)
Definition ShorthornApiScraper_init (getenv : option string)
    (start : string -> outcome (string -> outcome json))
    (get : string -> Params -> outcome Response)
    (tables : string -> option string -> outcome (list DataFrame))
    (keeps : bool) : World :=
  {| ai_model := AIProcessor_init None getenv start;
     http_get := get;
     html_tables := tables;
     keeps_missing := keeps |}.

(** *** [TestIntelligentApiScraper._find_column_index] *)

(** [name in header]. *)
Definition list_contains (x : string) (l : list string) : bool :=
  existsb (String.eqb x) l.

(** [header.index(name)]: the first position of [name], a [ValueError]
    when there is none. *)
Fixpoint list_index (x : string) (l : list string) : outcome nat :=
  match l with
  | [] => Raises (OtherException ("'" +:+ x +:+ "' is not in list"))
  | y :: l' =>
      if String.eqb y x then Returns 0%nat
      else match list_index x l' with
           | Returns i => Returns (S i)
           | Raises e => Raises e
           end
  end.

Fixpoint _find_column_index (header possible_names : list string)
  : outcome (option nat) :=
  match possible_names with
  | [] => Returns None
  | name :: rest =>
      if list_contains name header then
        match list_index name header with
        | Returns i => Returns (Some i)
        | Raises e => Raises e
        end
      else _find_column_index header rest
  end.

(** *** [setup.py] *)

(** The set-up script works on the files of the current directory, on the
    Python system it runs in and on the standard output.  The directory
    is a finite map from file names to contents: its entries are regular
    files, and it can be written to.  Reading a file decodes it and may
    raise ([read_text]).  What is printed is a list of [message]s, one
    constructor for each [print] of the script (or for a run of [print]s
    that always go together), with the values a message is formatted
    with; the fixed wording is not reproduced. *)
Module Setup.

(** An exception, as far as the script tells them apart: whether it is an
    [ImportError], and its text. *)
Record raised := { import_error : bool; raised_text : string }.

(** [subprocess.check_call]: it returns, or raises [CalledProcessError],
    or raises something the script does not catch. *)
Inductive pip_result :=
  | PipDone
  | PipFailed (e : string)
  | PipCrashed (e : pyexn).

Record System := {
  (** [sys.version_info], its first two components. *)
  version_info : nat * nat;
  (** [sys.version]. *)
  version : string;
  (** The [pip install -r requirements.txt] run. *)
  pip : pip_result;
  (** [import requests] and the status of the test request, or what
      was raised on the way. *)
  internet : raised + Z;
  (** The imports of [requests], [pandas] and [StringIO]. *)
  core_modules : option raised;
  (** The imports of [google.generativeai], [html5lib] and [bs4]. *)
  genai_module : option raised;
  html5lib_module : option raised;
  bs4_module : option raised;
  (** [len(pd.read_html(StringIO(test_html)))], or what was raised. *)
  test_tables : raised + nat;
  (** [Path.read_text()] on a file with this content: the text, decoded
      in the encoding of the locale, or what was raised when the content
      cannot be decoded. *)
  read_text : string -> outcome string
}.

Inductive message :=
  | InstallingDependencies
  | DependenciesInstalled
  | DependenciesFailed (e : string)
  | CreatingEnv
  | EnvCreated
  | EnvExists
  | CheckingSystem
  | PythonTooOld (current : string)
  | PythonDetected (short : string)
  | InternetVerified
  | InternetUnstable
  | InternetUnverified
  | RunningTest
  | CoreModulesImported
  | GenaiAvailable
  | GenaiMissing
  | Html5libAvailable
  | Html5libMissing
  | Bs4Available
  | Bs4Missing
  | ParsingFunctional
  | TestCompleted
  | ImportFailed (e : string)
  | TestFailed (e : string)
  | UsageExamples
  | ValidatingEnvironment
  | EnvHasPlaceholder
  | EnvConfigured
  | MissingFiles (names : string)
  | AllFilesPresent
  | Banner
  | Separator
  | SetupSucceeded
  | SetupFailed
  | Footer.

Abbreviation files := (gmap string string).

(** [Path(name).exists()]. *)
Definition file_exists (fs : files) (name : string) : bool :=
  bool_decide (is_Some (fs !! name)).

Definition install_requirements (sys : System) : outcome bool * list message :=
  match pip sys with
  | PipDone => (Returns true, [InstallingDependencies; DependenciesInstalled])
  | PipFailed e => (Returns false, [InstallingDependencies; DependenciesFailed e])
  | PipCrashed e => (Raises e, [InstallingDependencies])
  end.

Definition env_content : string :=
"# Google AI API Key for natural language processing
# Get your key from: https://makersuite.google.com/app/apikey
GOOGLE_API_KEY=your_google_ai_api_key_here

# Optional: Set log level (DEBUG, INFO, WARNING, ERROR)
LOG_LEVEL=INFO
".

Definition create_env_file (fs : files) : bool * files * list message :=
  if negb (file_exists fs ".env") then
    (true, <[ ".env" := env_content ]> fs, [CreatingEnv; EnvCreated])
  else (true, fs, [EnvExists]).

(** [sys.version_info < (3, 8)]. *)
Definition older_than_3_8 (v : nat * nat) : bool :=
  ((v.1 <? 3) || ((v.1 =? 3) && (v.2 <? 8)))%nat.

(** [s.split()[0]] for a text that holds a word: the first run of
    characters that are not space. *)
Fixpoint word (s : string) : string :=
  match s with
  | EmptyString => EmptyString
  | String c t => if Text.is_space c then EmptyString else String c (word t)
  end.

Definition first_word (s : string) : string := word (Text.lstrip s).

Definition check_system_requirements (sys : System) : bool * list message :=
  if older_than_3_8 (version_info sys) then
    (false, [CheckingSystem; PythonTooOld (version sys)])
  else
    (true,
     [CheckingSystem; PythonDetected (first_word (version sys))]
     ++ match internet sys with
        | inr status => if (status =? 200)%Z then [InternetVerified] else [InternetUnstable]
        | inl _ => [InternetUnverified]
        end).

(** The two handlers at the end of [run_test_installation]. *)
Definition test_aborted (e : raised) (printed : list message) : bool * list message :=
  (false, printed ++ [if import_error e then ImportFailed (raised_text e)
                      else TestFailed (raised_text e)]).

(** An optional import inside [run_test_installation]: an [ImportError]
    is answered by a warning, any other exception leaves the inner [try]. *)
Definition optional_import (module : option raised) (available missing : message)
  : raised + message :=
  match module with
  | None => inr available
  | Some e => if import_error e then inr missing else inl e
  end.

Definition run_test_installation (sys : System) : bool * list message :=
  match core_modules sys with
  | Some e => test_aborted e [RunningTest]
  | None =>
      match optional_import (genai_module sys) GenaiAvailable GenaiMissing with
      | inl e => test_aborted e [RunningTest; CoreModulesImported]
      | inr m1 =>
          match optional_import (html5lib_module sys) Html5libAvailable Html5libMissing with
          | inl e => test_aborted e [RunningTest; CoreModulesImported; m1]
          | inr m2 =>
              match optional_import (bs4_module sys) Bs4Available Bs4Missing with
              | inl e => test_aborted e [RunningTest; CoreModulesImported; m1; m2]
              | inr m3 =>
                  match test_tables sys with
                  | inl e => test_aborted e [RunningTest; CoreModulesImported; m1; m2; m3]
                  | inr n =>
                      (true,
                       [RunningTest; CoreModulesImported; m1; m2; m3]
                       ++ (if (0 <? n)%nat then [ParsingFunctional] else [])
                       ++ [TestCompleted])
                  end
              end
          end
      end
  end.

Definition required_files : list string :=
  ["intelligent_scraper.py"; "test_scraper_validation.py"; "requirements.txt"].

(** [', '.join(names)]. *)
Fixpoint join (names : list string) : string :=
  match names with
  | [] => EmptyString
  | [name] => name
  | name :: rest => name +:+ ", " +:+ join rest
  end.

(** What [validate_environment] prints about [.env]; the read is not
    guarded, so what [read_text] raises leaves the function. *)
Definition env_report (sys : System) (fs : files) : outcome (list message) :=
  match fs !! ".env" with
  | Some content =>
      match read_text sys content with
      | Returns env_content =>
          Returns (if Str.contains "your_google_ai_api_key_here" env_content
                   then [EnvHasPlaceholder] else [EnvConfigured])
      | Raises e => Raises e
      end
  | None => Returns []
  end.

Definition validate_environment (sys : System) (fs : files) : outcome bool * list message :=
  match env_report sys fs with
  | Raises e => (Raises e, [ValidatingEnvironment])
  | Returns about_env =>
      let missing_files := filter (fun file => file_exists fs file = false) required_files in
      match missing_files with
      | [] => (Returns true, [ValidatingEnvironment] ++ about_env ++ [AllFilesPresent])
      | _ => (Returns false,
              [ValidatingEnvironment] ++ about_env ++ [MissingFiles (join missing_files)])
      end
  end.

(** [main]: what it leaves in the directory and what it prints; it
    returns nothing, and raises when the read of [.env] or the pip run
    does. *)
Definition main (sys : System) (fs : files) : outcome unit * files * list message :=
  let success := true in
  let '(ok1, out1) := check_system_requirements sys in
  let success := if negb ok1 then false else success in
  match validate_environment sys fs with
  | (Raises e, out2) => (Raises e, fs, [Banner] ++ out1 ++ out2)
  | (Returns ok2, out2) =>
      let success := if negb ok2 then false else success in
      match install_requirements sys with
      | (Raises e, out3) => (Raises e, fs, [Banner] ++ out1 ++ out2 ++ out3)
      | (Returns ok3, out3) =>
          let success := if negb ok3 then false else success in
          let '(ok4, fs', out4) := create_env_file fs in
          let success := if negb ok4 then false else success in
          let '(ok5, out5) := run_test_installation sys in
          let success := if negb ok5 then false else success in
          (Returns tt, fs',
           [Banner] ++ out1 ++ out2 ++ out3 ++ out4 ++ out5 ++ [Separator]
           ++ (if success then [SetupSucceeded; UsageExamples] else [SetupFailed])
           ++ [Footer])
      end
  end.

(** An existing [.env] can be read: its content decodes in the encoding
    of the locale. *)
Definition env_readable (sys : System) (fs : files) : Prop :=
  forall content, fs !! ".env" = Some content ->
    exists env_content, read_text sys content = Returns env_content.

(** A module is usable for the test when its import works or fails with
    an [ImportError]. *)
Definition importable_or_missing (module : option raised) : Prop :=
  forall e, module = Some e -> import_error e = true.

(** The conditions on which the script reports success. *)
Definition ready (sys : System) (fs : files) : Prop :=
  older_than_3_8 (version_info sys) = false
  /\ Forall (fun file => is_Some (fs !! file)) required_files
  /\ pip sys = PipDone
  /\ (run_test_installation sys).1 = true.

(** A system on which everything works, and a directory with the three
    project files. *)
Definition sample_system : System :=
  {| version_info := (3, 11)%nat;
     version := "3.11.4 (main, Jun  7 2023) [GCC 12.2.0]";
     pip := PipDone;
     internet := inr 200;
     core_modules := None;
     genai_module := Some {| import_error := true;
                             raised_text := "No module named 'google'" |};
     html5lib_module := None;
     bs4_module := None;
     test_tables := inr 1%nat;
     read_text := fun content => Returns content |}.

Definition sample_files : gmap string string :=
  list_to_map [("intelligent_scraper.py", "..."); ("test_scraper_validation.py", "...");
               ("requirements.txt", "requests")].

(** The same directory after the key was filled in, and a system whose
    locale cannot decode that file. *)
Definition configured_files : gmap string string :=
  <[ ".env" := "GOOGLE_API_KEY=abc" ]> sample_files.

Definition undecodable : pyexn :=
  OtherException "'utf-8' codec can't decode byte 0xff in position 0: invalid start byte".

Definition strict_system : System :=
  {| version_info := (3, 11)%nat;
     version := "3.11.4 (main, Jun  7 2023) [GCC 12.2.0]";
     pip := PipDone;
     internet := inr 200;
     core_modules := None;
     genai_module := None;
     html5lib_module := None;
     bs4_module := None;
     test_tables := inr 1%nat;
     read_text := fun _ => Raises undecodable |}.

End Setup.

(** *** Further sample inputs *)

(** The first parser returns, with no table in its list; the others would
    find the tables. *)
Definition html5lib_empty : option string -> outcome (list DataFrame) :=
  fun flavor =>
    match flavor with
    | Some "html5lib" => Returns []
    | _ => Returns [sample_frame]
    end.

(** [Kansas] spelled with the Kelvin sign U+212A for its first letter. *)
Definition kelvin_ansas : string :=
  String (Ascii.ascii_of_N 226) (String (Ascii.ascii_of_N 132)
    (String (Ascii.ascii_of_N 170) "ansas")).

(** The no-break space U+00A0. *)
Definition nbsp : string :=
  String (Ascii.ascii_of_N 194) (String (Ascii.ascii_of_N 160) "").

(** ** Strings: substring test and lowering *)

Section StrFacts.

Lemma append_cons a s t : String a s +:+ t = String a (s +:+ t).
Proof. reflexivity. Qed.

Lemma starts_with_spec needle hay :
  Str.starts_with needle hay = true <-> exists post, hay = needle +:+ post.
Proof.
  revert hay. induction needle as [|a needle IH]; intros hay; simpl.
  - split; [intros _; by exists hay | done].
  - destruct hay as [|b hay].
    + split; [done | intros [post Hpost]; discriminate].
    + destruct (Ascii.eqb_spec a b) as [->|Hne].
      * rewrite IH. split; intros [post Hpost]; exists post;
          rewrite append_cons in *; congruence.
      * split; [done | intros [post Hpost]; rewrite append_cons in Hpost; congruence].
Qed.

Lemma contains_spec needle hay :
  Str.contains needle hay = true <-> substring needle hay.
Proof.
  unfold substring. induction hay as [|b hay IH]; simpl.
  - rewrite orb_false_r, starts_with_spec. split.
    + intros [post Hpost]. by exists "", post.
    + intros (pre & post & Hpre). destruct pre; [by exists post | discriminate].
  - rewrite orb_true_iff, starts_with_spec, IH. split.
    + intros [[post Hpost] | (pre & post & Hpre)].
      * by exists "", post.
      * exists (String b pre), post. by rewrite append_cons, Hpre.
    + intros (pre & post & Hpre). destruct pre as [|c pre].
      * left. by exists post.
      * right. exists pre, post. rewrite append_cons in Hpre. congruence.
Qed.

Lemma any_in_spec patterns hay :
  Str.any_in patterns hay = true <-> exists p, In p patterns /\ substring p hay.
Proof.
  unfold Str.any_in. rewrite existsb_exists.
  split; intros (p & Hin & Hp); exists p; split; try done; by apply contains_spec.
Qed.

Lemma any_in_false patterns hay :
  Str.any_in patterns hay = false <-> forall p, In p patterns -> ~ substring p hay.
Proof.
  rewrite <- not_true_iff_false, any_in_spec. split.
  - intros Hno p Hin Hsub. apply Hno. eauto.
  - intros Hno (p & Hin & Hsub). by apply (Hno p).
Qed.

Lemma lower_ascii_idemp c : Str.lower_ascii (Str.lower_ascii c) = Str.lower_ascii c.
Proof. by destruct c as [[] [] [] [] [] [] [] []]. Qed.

End StrFacts.

(** ** The registry holds what the code relies on *)

Section Registry.

Lemma registry_well_formed : map_Forall entry_well_formed LOCATION_DATA.
Proof. apply (bool_decide_unpack _). vm_compute. reflexivity. Qed.

Lemma registry_key_lower key entry :
  LOCATION_DATA !! key = Some entry -> Str.lower key = key.
Proof. intros H. by destruct (registry_well_formed key entry H). Qed.

Lemma registry_no_empty_country : LOCATION_DATA !! "" = None.
Proof. reflexivity. Qed.

Lemma registry_province key entry p code :
  LOCATION_DATA !! key = Some entry -> provinces entry !! p = Some code ->
  Str.lower p = p /\ p <> "" /\ code <> "".
Proof.
  intros Hk Hp. destruct (registry_well_formed key entry Hk) as (_ & _ & Hall).
  exact (Hall p code Hp).
Qed.

End Registry.

(** ** Running the effects *)

Ltac eff_unfold :=
  unfold run, try_except, requests_get, pd_read_html, mbind, mret,
    Eff_bind, Eff_ret, emit, lift in *.

Section TableExtraction.

Variable w : World.
Variable html : string.

Let fails (parser : string) : Prop := read_fails w html (Some parser).
Let reads (ps : list string) : list event := EvReadHtml html ∘ Some <$> ps.

(** The loop stops at the first parser that returns. *)
Lemma try_parsers_stops pre f post dfs pe tr :
  Forall fails pre -> html_tables w html (Some f) = Returns dfs ->
  exists pe', try_parsers w html (pre ++ f :: post) pe tr
              = (Returns (Some dfs, pe'), tr ++ reads (pre ++ [f])).
Proof.
  intros Hpre Hf. revert pe tr.
  induction Hpre as [|g pre [e Hg] _ IH]; intros pe tr; simpl.
  - exists pe. eff_unfold. by rewrite Hf.
  - destruct (IH (Some e) (tr ++ [EvReadHtml html (Some g)])) as [pe' IH'].
    exists pe'. eff_unfold. rewrite Hg, IH'. by rewrite <- app_assoc.
Qed.

(** When every parser raises the loop runs through the whole list. *)
Lemma try_parsers_exhausted ps pe tr :
  Forall fails ps ->
  exists pe', try_parsers w html ps pe tr = (Returns (None, pe'), tr ++ reads ps).
Proof.
  intros Hps. revert pe tr.
  induction Hps as [|g ps [e Hg] _ IH]; intros pe tr; simpl.
  - exists pe. eff_unfold. by rewrite app_nil_r.
  - destruct (IH (Some e) (tr ++ [EvReadHtml html (Some g)])) as [pe' IH'].
    exists pe'. eff_unfold. rewrite Hg, IH'. by rewrite <- app_assoc.
Qed.

(** One of the two happens. *)
Lemma try_parsers_cases ps pe tr :
  (exists pre f post dfs pe',
      ps = pre ++ f :: post /\ Forall fails pre /\
      html_tables w html (Some f) = Returns dfs /\
      try_parsers w html ps pe tr = (Returns (Some dfs, pe'), tr ++ reads (pre ++ [f])))
  \/ (Forall fails ps /\
      exists pe', try_parsers w html ps pe tr = (Returns (None, pe'), tr ++ reads ps)).
Proof.
  assert (Hdec : Forall fails ps \/
            exists pre f post dfs, ps = pre ++ f :: post /\ Forall fails pre /\
                                   html_tables w html (Some f) = Returns dfs).
  { induction ps as [|g ps IH]; [by left |].
    destruct (html_tables w html (Some g)) as [dfs|e] eqn:Hg.
    - right. by exists [], g, ps, dfs.
    - assert (fails g) by (by exists e).
      destruct IH as [Hall | (pre & f & post & dfs & -> & Hpre & Hf)].
      + left. by constructor.
      + right. exists (g :: pre), f, post, dfs. repeat split; [by constructor | done]. }
  destruct Hdec as [Hall | (pre & f & post & dfs & -> & Hpre & Hf)].
  - right. split; [done | by apply try_parsers_exhausted].
  - left. destruct (try_parsers_stops pre f post dfs pe tr Hpre Hf) as [pe' Hrun].
    by exists pre, f, post, dfs, pe'.
Qed.

End TableExtraction.

(** ** Retrieval: [_call_api] *)

Section Retrieval.

Variable w : World.
Variable params : Params.

(** The handler of [RequestException]. *)
Lemma call_api_request_exception msg tr :
  http_get w base_url params = Raises (RequestException msg) ->
  _call_api w params tr
  = (Returns (Error ("Gagal menghubungi API: " +:+ msg) None), tr ++ [EvGet base_url params]).
Proof. intros Hget. unfold _call_api. eff_unfold. by rewrite Hget. Qed.

(** The status check raises exactly from 400 to 599. *)
Lemma raise_for_status_raises r :
  400 <= status_code r < 600 -> exists msg, raise_for_status r = Raises (RequestException msg).
Proof.
  intros Hs. unfold raise_for_status.
  destruct ((400 <=? status_code r) && (status_code r <? 500)) eqn:H4; [by eexists |].
  destruct ((500 <=? status_code r) && (status_code r <? 600)) eqn:H5; [by eexists |].
  apply andb_false_iff in H4, H5. lia.
Qed.

Lemma raise_for_status_passes r :
  ~ (400 <= status_code r < 600) -> raise_for_status r = Returns tt.
Proof.
  intros Hs. unfold raise_for_status.
  destruct ((400 <=? status_code r) && (status_code r <? 500)) eqn:H4;
    [apply andb_true_iff in H4; lia |].
  destruct ((500 <=? status_code r) && (status_code r <? 600)) eqn:H5;
    [apply andb_true_iff in H5; lia | done].
Qed.

Lemma call_api_http_error r tr :
  http_get w base_url params = Returns r -> 400 <= status_code r < 600 ->
  exists msg,
    _call_api w params tr
    = (Returns (Error ("Gagal menghubungi API: " +:+ msg) None), tr ++ [EvGet base_url params]).
Proof.
  intros Hget Hs. destruct (raise_for_status_raises r Hs) as [msg Hmsg].
  exists msg. unfold _call_api. eff_unfold. by rewrite Hget, Hmsg.
Qed.

Variable r : Response.
Hypothesis Hget : http_get w base_url params = Returns r.
Hypothesis Hok : raise_for_status r = Returns tt.

Lemma call_api_sentinel tr :
  Str.any_in no_results_indicators (text r) = true ->
  _call_api w params tr = (Returns (Table [] []), tr ++ [EvGet base_url params]).
Proof. intros Hany. unfold _call_api. eff_unfold. by rewrite Hget, Hok, Hany. Qed.

Lemma call_api_extracts tr :
  Str.any_in no_results_indicators (text r) = false ->
  exists flavors df_list parse_error,
    extraction w (text r) flavors df_list /\
    _call_api w params tr
    = (Returns (shaped (keeps_missing w) (text r) df_list parse_error),
       tr ++ EvGet base_url params :: (EvReadHtml (text r) <$> flavors)).
Proof.
  intros Hany. unfold _call_api, generic_attempt. eff_unfold.
  rewrite Hget, Hok, Hany.
  destruct (try_parsers_cases w (text r) parsers None (tr ++ [EvGet base_url params]))
    as [(pre & f & post & dfs & pe & Hsplit & Hpre & Hf & Hrun) | (Hall & pe & Hrun)];
    rewrite Hrun.
  - exists (Some <$> (pre ++ [f])), (Some dfs), pe. split.
    + by apply (extraction_by_parser w (text r) pre f post dfs).
    + rewrite <- app_assoc, <- list_fmap_compose. unfold shaped.
      destruct dfs; [destruct (Str.any_in empty_patterns _) |]; reflexivity.
  - destruct (html_tables w (text r) None) as [dfs|e] eqn:Hgen.
    + exists ((Some <$> parsers) ++ [None]), (Some dfs), pe. split.
      * by apply extraction_generic.
      * rewrite fmap_app, <- list_fmap_compose, <- !app_assoc. unfold shaped.
        destruct dfs; [destruct (Str.any_in empty_patterns _) |]; reflexivity.
    + exists ((Some <$> parsers) ++ [None]), None, (Some e). split.
      * apply extraction_nothing; [done | by exists e].
      * rewrite fmap_app, <- list_fmap_compose, <- !app_assoc. unfold shaped.
        destruct (Str.any_in empty_patterns _); reflexivity.
Qed.

End Retrieval.

(** ** The order of the table-reading attempts *)

Section Extraction.

Variable w : World.
Variable html : string.

Let fails (parser : string) : Prop := read_fails w html (Some parser).

Lemma fails_not_returns g dfs : fails g -> html_tables w html (Some g) = Returns dfs -> False.
Proof. intros [e He] Hr. congruence. Qed.

(** The first parser that returns is determined by the list. *)
Lemma first_return_unique pre f dfs post pre' f' dfs' post' :
  pre ++ f :: post = pre' ++ f' :: post' ->
  Forall fails pre -> html_tables w html (Some f) = Returns dfs ->
  Forall fails pre' -> html_tables w html (Some f') = Returns dfs' ->
  pre = pre' /\ f = f'.
Proof.
  revert pre'. induction pre as [|g pre IH]; intros [|g' pre'] Heq Hpre Hf Hpre' Hf';
    simpl in Heq; simplify_eq.
  - done.
  - apply Forall_cons in Hpre' as [Hg _]. destruct (fails_not_returns _ _ Hg Hf).
  - apply Forall_cons in Hpre as [Hg _]. destruct (fails_not_returns _ _ Hg Hf').
  - apply Forall_cons in Hpre as [_ Hpre]. apply Forall_cons in Hpre' as [_ Hpre'].
    destruct (IH pre' H0 Hpre Hf Hpre' Hf') as [-> ->]. done.
Qed.

Lemma all_fail_none_returns pre f post dfs :
  Forall fails (pre ++ f :: post) -> html_tables w html (Some f) = Returns dfs -> False.
Proof.
  intros Hall Hf. apply Forall_app in Hall as [_ Hall].
  apply Forall_cons in Hall as [Hg _]. exact (fails_not_returns _ _ Hg Hf).
Qed.

(** An element followed by another is not the last one. *)
Lemma followed_not_last {A} (xs : list A) y before g h after :
  xs ++ [y] = before ++ g :: h :: after -> g ∈ xs.
Proof.
  intros Heq.
  destruct (exists_last (l := h :: after)) as (init & z & Hlast); [done |].
  rewrite Hlast in Heq.
  replace (before ++ g :: init ++ [z]) with ((before ++ g :: init) ++ [z]) in Heq
    by (by rewrite <- app_assoc).
  apply app_inj_tail in Heq as [-> _]. set_solver.
Qed.

Variable flavors : list (option string).
Variable df_list : option (list DataFrame).
Hypothesis Hext : extraction w html flavors df_list.

Lemma extraction_stops pre f post dfs :
  parsers = pre ++ f :: post -> Forall fails pre ->
  html_tables w html (Some f) = Returns dfs ->
  flavors = Some <$> (pre ++ [f]) /\ df_list = Some dfs.
Proof.
  intros Hsplit Hpre Hf.
  destruct Hext as [pre' f' post' dfs' Hsplit' Hpre' Hf' | dfs' Hall _ | Hall _].
  - rewrite Hsplit in Hsplit'.
    destruct (first_return_unique _ _ _ _ _ _ _ _ Hsplit' Hpre Hf Hpre' Hf') as [-> ->].
    split; [done | congruence].
  - rewrite Hsplit in Hall. destruct (all_fail_none_returns _ _ _ _ Hall Hf).
  - rewrite Hsplit in Hall. destruct (all_fail_none_returns _ _ _ _ Hall Hf).
Qed.

Lemma extraction_falls_back :
  Forall fails parsers -> flavors = (Some <$> parsers) ++ [None].
Proof.
  intros Hall.
  destruct Hext as [pre f post dfs Hsplit _ Hf | |]; [| done | done].
  rewrite Hsplit in Hall. destruct (all_fail_none_returns _ _ _ _ Hall Hf).
Qed.

Lemma extraction_next_after_failure before g h after :
  flavors = before ++ g :: h :: after -> read_fails w html g.
Proof.
  intros Heq.
  assert (Hin : exists pre, Forall fails pre /\ g ∈ Some <$> pre).
  { destruct Hext as [pre f post dfs _ Hpre _ | dfs Hall _ | Hall _].
    - exists pre. split; [done |]. rewrite fmap_app in Heq.
      by apply (followed_not_last _ _ _ _ _ _ Heq).
    - exists parsers. split; [done |]. by apply (followed_not_last _ _ _ _ _ _ Heq).
    - exists parsers. split; [done |]. by apply (followed_not_last _ _ _ _ _ _ Heq). }
  destruct Hin as (pre & Hpre & Hin).
  apply list_elem_of_fmap in Hin as (g0 & -> & Hg0).
  rewrite Forall_forall in Hpre. by apply Hpre.
Qed.

Lemma extraction_generic_last_resort :
  None ∈ flavors -> Forall fails parsers.
Proof.
  intros Hin. destruct Hext as [pre f post dfs _ _ _ | |]; [| done | done].
  apply list_elem_of_fmap in Hin as (g0 & Hg0 & _). discriminate.
Qed.

End Extraction.

Lemma extraction_deterministic w html flavors df_list flavors' df_list' :
  extraction w html flavors df_list -> extraction w html flavors' df_list' ->
  flavors = flavors' /\ df_list = df_list'.
Proof.
  intros H1 H2.
  destruct H2 as [pre f post dfs Hsplit Hpre Hf | dfs Hall Hgen | Hall Hgen].
  - exact (extraction_stops w html flavors df_list H1 pre f post dfs Hsplit Hpre Hf).
  - pose proof (extraction_falls_back w html flavors df_list H1 Hall) as ->.
    split; [done |].
    destruct H1 as [pre f post dfs' Hsplit _ Hf | dfs' _ Hgen' | _ [e He]]; [| congruence..].
    rewrite Hsplit in Hall. destruct (all_fail_none_returns _ _ _ _ _ _ Hall Hf).
  - pose proof (extraction_falls_back w html flavors df_list H1 Hall) as ->.
    split; [done |]. destruct Hgen as [e He].
    destruct H1 as [pre f post dfs' Hsplit _ Hf | dfs' _ Hgen' | _ _]; [| congruence | done].
    rewrite Hsplit in Hall. destruct (all_fail_none_returns _ _ _ _ _ _ Hall Hf).
Qed.

(** ** Properties of retrieval *)

(** C1. A body that contains one of the four sentinels of
    [no_results_indicators], as a literal substring, makes retrieval return
    the empty result [{"header": [], "data": []}], whatever else the body
    holds; the only call made is the request itself, so no table reading
    is attempted. The body is that of a response that passed the status
    check. *)
Theorem call_api_sentinel_short_circuits (w : World) (params : Params)
    (r : Response) (indicator : string) :
  http_get w base_url params = Returns r ->
  raise_for_status r = Returns tt ->
  In indicator no_results_indicators ->
  substring indicator (text r) ->
  run (_call_api w params) = (Returns (Table [] []), [EvGet base_url params]).
Proof.
  intros Hget Hok Hin Hsub. unfold run.
  rewrite (call_api_sentinel w params r Hget Hok); [done |].
  apply any_in_spec. by exists indicator.
Qed.

Lemma call_api_sentinel_short_circuits_witness :
  run (_call_api (sample_world (Returns JNull)
                    (Returns (sample_response 200 sentinel_page))
                    (fun _ => Returns [sample_frame]))
                 sample_params)
  = (Returns (Table [] []), [EvGet base_url sample_params]).
Proof.
  apply (call_api_sentinel_short_circuits _ _ (sample_response 200 sentinel_page)
           "No records found").
  - reflexivity.
  - reflexivity.
  - simpl. auto.
  - exists "<p>", "</p><table><tr><td>x</td></tr></table>". reflexivity.
Defined.

(** C2. When no sentinel of [no_results_indicators] occurs in the body and
    no table-reading attempt yields a table, the lowered body decides: if
    it contains one of [empty_patterns] retrieval returns the empty
    result, and if it contains none retrieval returns the parse error
    ["Gagal mem-parsing tabel dari respons API: ..."], which is not the
    empty result. *)
Theorem call_api_no_table_disambiguation (w : World) (params : Params) (r : Response) :
  http_get w base_url params = Returns r ->
  raise_for_status r = Returns tt ->
  (forall indicator, In indicator no_results_indicators -> ~ substring indicator (text r)) ->
  (forall flavor dfs, html_tables w (text r) flavor = Returns dfs -> dfs = []) ->
  ((exists pattern, In pattern empty_patterns /\ substring pattern (Str.lower (text r))) ->
     (run (_call_api w params)).1 = Returns (Table [] []))
  /\ ((forall pattern, In pattern empty_patterns -> ~ substring pattern (Str.lower (text r))) ->
       exists cause,
         (run (_call_api w params)).1
         = Returns (Error ("Gagal mem-parsing tabel dari respons API: " +:+ cause) None)).
Proof.
  intros Hget Hok Hnone Hempty. apply any_in_false in Hnone.
  destruct (call_api_extracts w params r Hget Hok [] Hnone)
    as (flavors & df_list & pe & Hext & Hrun).
  unfold run. rewrite Hrun. cbn [fst].
  assert (Hshape : shaped (keeps_missing w) (text r) df_list pe
                   = if Str.any_in empty_patterns (Str.lower (text r)) then Table [] []
                     else Error ("Gagal mem-parsing tabel dari respons API: "
                                 +:+ parse_error_str pe) None).
  { destruct Hext as [pre f post dfs _ _ Hf | dfs _ Hgen | _ _]; [| | done].
    - by rewrite (Hempty _ _ Hf).
    - by rewrite (Hempty _ _ Hgen). }
  rewrite Hshape. split.
  - intros Hpat. apply any_in_spec in Hpat. by rewrite Hpat.
  - intros Hpat. apply any_in_false in Hpat. rewrite Hpat. by eexists.
Qed.

Lemma call_api_no_table_disambiguation_witness :
  (run (_call_api (sample_world (Returns JNull)
                     (Returns (sample_response 200 "<div>The list is EMPTY.</div>"))
                     no_tables)
                  sample_params)).1
  = Returns (Table [] [])
  /\ exists cause,
       (run (_call_api (sample_world (Returns JNull)
                          (Returns (sample_response 200 "<div>Welcome</div>"))
                          no_tables)
                       sample_params)).1
       = Returns (Error ("Gagal mem-parsing tabel dari respons API: " +:+ cause) None).
Proof.
  split.
  - apply (call_api_no_table_disambiguation _ _
             (sample_response 200 "<div>The list is EMPTY.</div>")).
    + reflexivity.
    + reflexivity.
    + apply any_in_false. reflexivity.
    + intros flavor dfs H. discriminate H.
    + exists "empty". split; [simpl; auto |].
      exists "<div>the list is ", ".</div>". reflexivity.
  - apply (call_api_no_table_disambiguation _ _ (sample_response 200 "<div>Welcome</div>")).
    + reflexivity.
    + reflexivity.
    + apply any_in_false. reflexivity.
    + intros flavor dfs H. discriminate H.
    + apply any_in_false. reflexivity.
Defined.

(** The shape of the rows.  When table reading succeeds on a body without
    sentinel and the first table read has [N] rows and [M] columns,
    retrieval returns a table whose header has [M] entries, the column
    labels as text, and whose data has [N] rows of [M] cells each; the
    tables after the first play no part.  A cell is the text of the value
    it comes from, except that a missing value is kept as [NaN] by a
    pandas that keeps missing values: only without such a pandas is every
    cell a text. *)
Lemma call_api_rows (w : World) (params : Params) (r : Response)
    (flavors : list (option string)) (df : DataFrame) (rest : list DataFrame)
    (N M : nat) :
  http_get w base_url params = Returns r ->
  raise_for_status r = Returns tt ->
  (forall indicator, In indicator no_results_indicators -> ~ substring indicator (text r)) ->
  extraction w (text r) flavors (Some (df :: rest)) ->
  rectangular df -> length (columns df) = M -> length (values df) = N ->
  exists header data,
    (run (_call_api w params)).1 = Returns (Table header data)
    /\ header = map scalar_str (columns df)
    /\ data = map (map (astype_str (keeps_missing w))) (values df)
    /\ length header = M /\ length data = N
    /\ Forall (fun row => length row = length header) data
    /\ (keeps_missing w = false ->
        Forall (Forall (fun c => exists s, c = Text s)) data).
Proof.
  intros Hget Hok Hnone Hext Hrect HM HN. apply any_in_false in Hnone.
  destruct (call_api_extracts w params r Hget Hok [] Hnone)
    as (flavors' & df_list & pe & Hext' & Hrun).
  destruct (extraction_deterministic _ _ _ _ _ _ Hext' Hext) as [_ ->].
  exists (map scalar_str (columns df)),
         (map (map (astype_str (keeps_missing w))) (values df)).
  unfold run. rewrite Hrun. repeat split.
  - by rewrite length_map.
  - by rewrite length_map.
  - apply Forall_map. unfold rectangular in Hrect.
    eapply Forall_impl; [exact Hrect |]. intros row Hrow. cbn beta.
    by rewrite !length_map.
  - intros ->. apply Forall_map, Forall_true. intros row.
    apply Forall_map, Forall_true. intros x. destruct x; by eexists.
Qed.

Lemma call_api_rows_witness :
  exists header data,
    (run (_call_api (sample_world (Returns JNull)
                       (Returns (sample_response 200 "<table>..</table><table>..</table>"))
                       lxml_only)
                    sample_params)).1
    = Returns (Table header data)
    /\ header = ["Name"; "City"; "2"]
    /\ data = [[Text "Circle M"; Text "Calgary"; Text "7"];
               [Text "Creek Farm"; Text "nan"; Text "-1"]]
    /\ length header = 3%nat /\ length data = 2%nat
    /\ Forall (fun row => length row = length header) data
    /\ (false = false -> Forall (Forall (fun c => exists s, c = Text s)) data).
Proof.
  apply (call_api_rows
           (sample_world (Returns JNull)
              (Returns (sample_response 200 "<table>..</table><table>..</table>"))
              lxml_only)
           sample_params (sample_response 200 "<table>..</table><table>..</table>")
           (Some <$> (["html5lib"; "bs4"] ++ ["lxml"])) sample_frame [other_frame]).
  - reflexivity.
  - reflexivity.
  - apply any_in_false. reflexivity.
  - apply (extraction_by_parser _ _ ["html5lib"; "bs4"] "lxml" []).
    + reflexivity.
    + repeat constructor; by eexists.
    + reflexivity.
  - repeat constructor.
  - reflexivity.
  - reflexivity.
Defined.

(** C5 at a table the code does not turn into text: with a pandas that
    keeps missing values, [astype(str)] leaves the empty cell of the row
    as the float NaN, so the data handed back holds a cell that is not a
    text, next to a header and cells that are. *)
Theorem call_api_missing_cell_stays_nan :
  http_get pandas3_world base_url sample_params
  = Returns (sample_response 200 "<table>..</table>")
  /\ html_tables pandas3_world "<table>..</table>" (Some "html5lib")
     = Returns [frame_with_gap]
  /\ rectangular frame_with_gap
  /\ run (_call_api pandas3_world sample_params)
     = (Returns (Table ["Name"; "City"] [[Text "Circle M"; NaN]]),
        [EvGet base_url sample_params; EvReadHtml "<table>..</table>" (Some "html5lib")]).
Proof.
  split; [reflexivity |]. split; [reflexivity |]. split; [| reflexivity].
  repeat constructor.
Qed.

(** C6 as stated fails: the attempts do not go on to the first parser
    that yields a table. Here html5lib returns an empty list and bs4 would
    return a table; the run stops after html5lib, bs4 is never tried, and
    the empty list is reported as a parse error. *)
Lemma call_api_stops_at_empty_list :
  html_tables (sample_world (Returns JNull)
                 (Returns (sample_response 200 "<table>..</table>")) html5lib_empty)
    "<table>..</table>" (Some "html5lib") = Returns []
  /\ html_tables (sample_world (Returns JNull)
                    (Returns (sample_response 200 "<table>..</table>")) html5lib_empty)
       "<table>..</table>" (Some "bs4") = Returns [sample_frame]
  /\ run (_call_api (sample_world (Returns JNull)
                       (Returns (sample_response 200 "<table>..</table>")) html5lib_empty)
            sample_params)
     = (Returns (Error "Gagal mem-parsing tabel dari respons API: None" None),
        [EvGet base_url sample_params; EvReadHtml "<table>..</table>" (Some "html5lib")]).
Proof. split; [reflexivity |]. split; reflexivity. Qed.

(** C6, as the code has it. On a body without sentinel the table-reading
    attempts are the parsers of [parsers] in their order, one at a time:
    the attempts stop at the first parser that returns without raising,
    whether or not its list holds a table; an attempt is followed by
    another only if it raised, and the single attempt without a flavor is
    made, last, exactly when every parser of the list raised. *)
Theorem table_extraction_order (w : World) (params : Params) (r : Response) :
  http_get w base_url params = Returns r ->
  raise_for_status r = Returns tt ->
  (forall indicator, In indicator no_results_indicators -> ~ substring indicator (text r)) ->
  exists flavors,
    (run (_call_api w params)).2 = EvGet base_url params :: (EvReadHtml (text r) <$> flavors)
    /\ (forall pre f post dfs,
          parsers = pre ++ f :: post ->
          Forall (fun g => read_fails w (text r) (Some g)) pre ->
          html_tables w (text r) (Some f) = Returns dfs ->
          flavors = Some <$> (pre ++ [f]))
    /\ (Forall (fun g => read_fails w (text r) (Some g)) parsers ->
          flavors = (Some <$> parsers) ++ [None])
    /\ (forall before g h after,
          flavors = before ++ g :: h :: after -> read_fails w (text r) g)
    /\ (None ∈ flavors -> Forall (fun g => read_fails w (text r) (Some g)) parsers).
Proof.
  intros Hget Hok Hnone. apply any_in_false in Hnone.
  destruct (call_api_extracts w params r Hget Hok [] Hnone)
    as (flavors & df_list & pe & Hext & Hrun).
  exists flavors. unfold run. rewrite Hrun. split; [done |].
  split; [| split; [| split]].
  - intros pre f post dfs Hsplit Hpre Hf.
    by destruct (extraction_stops w (text r) flavors df_list Hext pre f post dfs).
  - by apply (extraction_falls_back w (text r) flavors df_list).
  - by apply (extraction_next_after_failure w (text r) flavors df_list).
  - by apply (extraction_generic_last_resort w (text r) flavors df_list).
Qed.

Lemma table_extraction_order_witness :
  exists flavors,
    (run (_call_api (sample_world (Returns JNull)
                       (Returns (sample_response 200 "<table>..</table>"))
                       lxml_only)
                    sample_params)).2
    = EvGet base_url sample_params :: (EvReadHtml "<table>..</table>" <$> flavors)
    /\ flavors = [Some "html5lib"; Some "bs4"; Some "lxml"].
Proof.
  destruct (table_extraction_order
              (sample_world (Returns JNull)
                 (Returns (sample_response 200 "<table>..</table>")) lxml_only)
              sample_params (sample_response 200 "<table>..</table>"))
    as (flavors & Htrace & Hstop & _).
  - reflexivity.
  - reflexivity.
  - apply any_in_false. reflexivity.
  - exists flavors. split; [exact Htrace |].
    apply (Hstop ["html5lib"; "bs4"] "lxml" [] [sample_frame; other_frame]).
    + reflexivity.
    + repeat constructor; by eexists.
    + reflexivity.
Defined.

(** C8, as the code has it. When [requests.get] raises a
    [RequestException], or the response has a status from 400 to 599,
    retrieval returns the network error ["Gagal menghubungi API: ..."];
    the trace holds the one request and nothing else: no second request,
    no table reading. *)
Theorem call_api_network_failure (w : World) (params : Params) :
  (forall msg,
     http_get w base_url params = Raises (RequestException msg) ->
     run (_call_api w params)
     = (Returns (Error ("Gagal menghubungi API: " +:+ msg) None), [EvGet base_url params]))
  /\ (forall r,
       http_get w base_url params = Returns r ->
       400 <= status_code r < 600 ->
       exists msg,
         run (_call_api w params)
         = (Returns (Error ("Gagal menghubungi API: " +:+ msg) None),
            [EvGet base_url params])).
Proof.
  split.
  - intros msg Hget. exact (call_api_request_exception w params msg [] Hget).
  - intros r Hget Hs. exact (call_api_http_error w params r [] Hget Hs).
Qed.

Lemma call_api_network_failure_witness :
  run (_call_api world_unreachable sample_params)
  = (Returns (Error "Gagal menghubungi API: Connection refused" None),
     [EvGet base_url sample_params])
  /\ exists msg,
       run (_call_api (sample_world (Returns JNull)
                         (Returns (sample_response 503 sentinel_page)) lxml_only)
                      sample_params)
       = (Returns (Error ("Gagal menghubungi API: " +:+ msg) None),
          [EvGet base_url sample_params]).
Proof.
  split.
  - apply (proj1 (call_api_network_failure world_unreachable sample_params)
             "Connection refused").
    reflexivity.
  - apply (proj2 (call_api_network_failure
                    (sample_world (Returns JNull)
                       (Returns (sample_response 503 sentinel_page)) lxml_only)
                    sample_params)
             (sample_response 503 sentinel_page)).
    + reflexivity.
    + simpl. lia.
Defined.

(** C8 as stated fails: a response with status 304 is outside 200..299,
    yet it passes the status check, its body is classified, and retrieval
    returns the empty result instead of a network error. *)
Lemma call_api_status_304_is_classified :
  http_get world_304 base_url sample_params
  = Returns (sample_response 304 "No records found")
  /\ ~ (200 <= status_code (sample_response 304 "No records found") < 300)
  /\ run (_call_api world_304 sample_params)
     = (Returns (Table [] []), [EvGet base_url sample_params]).
Proof. split; [reflexivity | split; [simpl; lia | reflexivity]]. Qed.

(** ** Resolution: [search] on a query object *)

Section Resolution.

Variable w : World.
Variable command : string.
Variable q : InterpretedQuery.
Hypothesis Hq : interpreted (interpret_command w command) q.

Lemma name_or_empty (field : option string) :
  (if Py.truthy (json_of_field field) then json_of_field field else JStr "")
  = JStr (default "" field).
Proof.
  destruct field as [s|]; [| done]. simpl.
  destruct (String.eqb_spec s "") as [->|]; done.
Qed.

(** On such a reply [search] is the location part followed by the call. *)
Lemma search_query tr :
  search w command tr
  = match resolve_location (json_of_field (country q)) (json_of_field (province q)) tr with
    | (Returns (inl early), tr') => (Returns early, tr')
    | (Returns (inr l), tr') =>
        _call_api w {| param_l := l; param_v := JStr (default "" (name q)) |} tr'
    | (Raises e, tr') => (Raises e, tr')
    end.
Proof.
  destruct Hq as (Htruthy & Hguard & Hcountry & Hprovince & Hname).
  unfold search. rewrite Htruthy. eff_unfold. cbn [negb].
  rewrite Hguard, Hname, Hcountry, Hprovince, name_or_empty.
  destruct (resolve_location _ _ tr) as [[[early|l]|e] tr']; reflexivity.
Qed.

End Resolution.

Section Location.

Variable province_field : json.
Variable tr : list event.

Lemma resolve_no_country :
  resolve_location JNull province_field tr = (Returns (inr ""), tr).
Proof. reflexivity. Qed.

Lemma resolve_empty_country :
  resolve_location (JStr "") province_field tr = (Returns (inr ""), tr).
Proof. reflexivity. Qed.

Lemma str_truthy s : s <> "" -> Py.truthy (JStr s) = true.
Proof. intros Hs. simpl. by destruct (String.eqb_spec s ""). Qed.

Lemma resolve_unknown_country c :
  c <> "" -> LOCATION_DATA !! Str.lower c = None ->
  resolve_location (JStr c) province_field tr
  = (Returns (inl (Error ("Negara tidak dikenal: " +:+ c) None)), tr).
Proof.
  intros Hc Hmiss. unfold resolve_location. rewrite (str_truthy c Hc).
  eff_unfold. cbn [Py.lower_receiver]. by rewrite Hmiss.
Qed.

Variable c : string.
Variable entry : LocationEntry.
Hypothesis Hentry : LOCATION_DATA !! Str.lower c = Some entry.

Lemma registered_country_not_empty : c <> "".
Proof. intros ->. simpl in Hentry. by rewrite registry_no_empty_country in Hentry. Qed.

Lemma resolve_country_only :
  Py.truthy province_field = false ->
  resolve_location (JStr c) province_field tr
  = (Returns (inr (api_code entry +:+ "|")), tr).
Proof.
  intros Hp. unfold resolve_location. rewrite (str_truthy c registered_country_not_empty).
  eff_unfold. cbn [Py.lower_receiver]. by rewrite Hentry, Hp.
Qed.

Lemma resolve_unknown_province p :
  p <> "" -> provinces entry !! Str.lower p = None ->
  resolve_location (JStr c) (JStr p) tr
  = (Returns (inl (Error ("Provinsi/Negara Bagian tidak dikenal '" +:+ p
                          +:+ "' untuk " +:+ c) None)), tr).
Proof.
  intros Hp Hmiss. unfold resolve_location.
  rewrite (str_truthy c registered_country_not_empty), (str_truthy p Hp).
  eff_unfold. cbn [Py.lower_receiver]. by rewrite Hentry, Hmiss.
Qed.

Lemma resolve_pair p code :
  provinces entry !! Str.lower p = Some code ->
  resolve_location (JStr c) (JStr p) tr
  = (Returns (inr (api_code entry +:+ "|" +:+ code)), tr).
Proof.
  intros Hcode.
  destruct (registry_province _ _ _ _ Hentry Hcode) as (_ & Hlp & Hne).
  assert (Hp : p <> "") by (intros ->; by apply Hlp).
  unfold resolve_location.
  rewrite (str_truthy c registered_country_not_empty), (str_truthy p Hp).
  eff_unfold. cbn [Py.lower_receiver]. rewrite Hentry, Hcode.
  by destruct (String.eqb_spec code "").
Qed.

End Location.

(** ** The requests of a run *)

Lemma http_calls_app tr1 tr2 : http_calls (tr1 ++ tr2) = http_calls tr1 ++ http_calls tr2.
Proof. apply omap_app. Qed.

Lemma http_calls_reads html flavors : http_calls (EvReadHtml html <$> flavors) = [].
Proof. induction flavors as [|f flavors IH]; [done | exact IH]. Qed.

(** Every run of [_call_api] returns a dict and sends one request. *)
Lemma call_api_total w params tr :
  exists res rest,
    _call_api w params tr = (Returns res, tr ++ EvGet base_url params :: rest)
    /\ http_calls rest = [].
Proof.
  destruct (http_get w base_url params) as [r|e] eqn:Hget.
  - destruct (raise_for_status r) as [[]|e] eqn:Hok.
    + destruct (Str.any_in no_results_indicators (text r)) eqn:Hany.
      * exists (Table [] []), []. split; [| done].
        by rewrite (call_api_sentinel w params r Hget Hok).
      * destruct (call_api_extracts w params r Hget Hok tr Hany)
          as (flavors & df_list & pe & _ & Hrun).
        eexists _, _. split; [exact Hrun | apply http_calls_reads].
    + unfold _call_api. eff_unfold. rewrite Hget, Hok.
      destruct (is_request_exception e); eexists _, []; by split.
  - unfold _call_api. eff_unfold. rewrite Hget.
    destruct (is_request_exception e); eexists _, []; by split.
Qed.

Lemma call_api_http_calls w params :
  http_calls (run (_call_api w params)).2 = [params].
Proof.
  unfold run. destruct (call_api_total w params []) as (res & rest & -> & Hrest).
  cbn [snd app]. change (EvGet base_url params :: rest) with ([EvGet base_url params] ++ rest).
  by rewrite http_calls_app, Hrest.
Qed.

Lemma searches_with_intro w command params :
  (forall tr, search w command tr = _call_api w params tr) -> searches_with w command params.
Proof.
  intros Heq. unfold searches_with, run. rewrite Heq.
  split; [done | apply call_api_http_calls].
Qed.

(** The dict with the three keys reads as its query. *)
Lemma interpreted_query q : interpreted (json_of_query q) q.
Proof. by destruct q. Qed.

(** A dict that lacks a key reads as a query without that field. *)
Example interpreted_missing_keys :
  interpreted (JObj {[ "country" := JStr "canada" ]}) (query (Some "canada") None None).
Proof. by repeat split. Qed.

(** The location part never raises on a query and leaves the trace alone. *)
Lemma resolve_location_query (co pr : option string) tr :
  exists resolved,
    resolve_location (json_of_field co) (json_of_field pr) tr = (Returns resolved, tr).
Proof.
  destruct co as [c|]; [| by eexists].
  destruct (decide (c = "")) as [->|Hc]; [by eexists |].
  destruct (LOCATION_DATA !! Str.lower c) as [entry|] eqn:Hentry.
  - destruct pr as [p|].
    + destruct (decide (p = "")) as [->|Hp].
      * eexists. by apply (resolve_country_only _ _ _ _ Hentry).
      * destruct (provinces entry !! Str.lower p) as [code|] eqn:Hcode.
        -- eexists. by apply (resolve_pair _ _ _ Hentry _ _ Hcode).
        -- eexists. by apply (resolve_unknown_province _ _ _ Hentry).
    + eexists. by apply (resolve_country_only _ _ _ _ Hentry).
  - eexists. by apply resolve_unknown_country.
Qed.

(** On a query object [search] returns a dict, after no request or after
    one request that carries the name. *)
Lemma search_query_total w command q :
  interpreted (interpret_command w command) q ->
  exists res tr,
    run (search w command) = (Returns res, tr)
    /\ (http_calls tr = []
        \/ exists l, http_calls tr
                     = [{| param_l := l; param_v := JStr (default "" (name q)) |}]).
Proof.
  intros Hq. unfold run. rewrite (search_query w command q Hq).
  destruct (resolve_location_query (country q) (province q) []) as [[early|l] ->].
  - exists early, []. split; [done | by left].
  - pose proof (call_api_http_calls w
                  {| param_l := l; param_v := JStr (default "" (name q)) |}) as Hcalls.
    unfold run in Hcalls.
    destruct (call_api_total w {| param_l := l; param_v := JStr (default "" (name q)) |} [])
      as (res & rest & Hrun & _).
    rewrite Hrun in *. eexists res, _.
    split; [reflexivity | right; by exists l].
Qed.

(** A failed interpretation is reported as an error dict with details. *)
Lemma search_model_unavailable w command :
  ai_model w = None ->
  run (search w command)
  = (Returns (Error "Gagal menafsirkan perintah." (Some (JStr "AI model not available."))),
     []).
Proof. intros Hm. unfold run, search, interpret_command. rewrite Hm. reflexivity. Qed.

Lemma search_model_raises w command model e :
  ai_model w = Some model -> model command = Raises e ->
  run (search w command)
  = (Returns (Error "Gagal menafsirkan perintah."
                (Some (JStr ("Failed to parse AI response: " +:+ exn_str e)))),
     []).
Proof.
  intros Hm He. unfold run, search, interpret_command. rewrite Hm, He. reflexivity.
Qed.

(** ** Properties of [search] *)

Section SearchOnQuery.

Variable w : World.
Variable command : string.
Variable q : InterpretedQuery.
Hypothesis Hq : interpreted (interpret_command w command) q.

Let name_param : json := JStr (default "" (name q)).

Lemma search_unknown_country c :
  country q = Some c -> c <> "" -> LOCATION_DATA !! Str.lower c = None ->
  run (search w command)
  = (Returns (Error ("Negara tidak dikenal: " +:+ c) None), []).
Proof.
  intros Hc Hne Hmiss. unfold run. rewrite (search_query w command q Hq), Hc.
  cbn [json_of_field]. by rewrite resolve_unknown_country.
Qed.

Lemma search_unknown_province c entry p :
  country q = Some c -> LOCATION_DATA !! Str.lower c = Some entry ->
  province q = Some p -> p <> "" -> provinces entry !! Str.lower p = None ->
  run (search w command)
  = (Returns (Error ("Provinsi/Negara Bagian tidak dikenal '" +:+ p
                     +:+ "' untuk " +:+ c) None), []).
Proof.
  intros Hc Hentry Hp Hne Hmiss. unfold run.
  rewrite (search_query w command q Hq), Hc, Hp. cbn [json_of_field].
  by rewrite (resolve_unknown_province _ _ _ Hentry).
Qed.

Lemma search_registered_pair c entry p code :
  country q = Some c -> LOCATION_DATA !! Str.lower c = Some entry ->
  province q = Some p -> provinces entry !! Str.lower p = Some code ->
  searches_with w command
    {| param_l := api_code entry +:+ "|" +:+ code; param_v := name_param |}.
Proof.
  intros Hc Hentry Hp Hcode. apply searches_with_intro. intros tr.
  rewrite (search_query w command q Hq), Hc, Hp. cbn [json_of_field].
  by rewrite (resolve_pair _ _ _ Hentry _ _ Hcode).
Qed.

Lemma search_registered_country c entry :
  country q = Some c -> LOCATION_DATA !! Str.lower c = Some entry ->
  province q = None \/ province q = Some "" ->
  searches_with w command
    {| param_l := api_code entry +:+ "|"; param_v := name_param |}.
Proof.
  intros Hc Hentry Hp. apply searches_with_intro. intros tr.
  rewrite (search_query w command q Hq), Hc. cbn [json_of_field].
  rewrite (resolve_country_only _ _ _ _ Hentry); [done |].
  by destruct Hp as [-> | ->].
Qed.

Lemma search_unfiltered :
  country q = None \/ country q = Some "" ->
  searches_with w command {| param_l := ""; param_v := name_param |}.
Proof.
  intros Hc. apply searches_with_intro. intros tr.
  rewrite (search_query w command q Hq). by destruct Hc as [-> | ->].
Qed.

End SearchOnQuery.

(** C3, as the code has it. A country that is a non-empty string and
    whose lowering is not a key of the registry makes [search] return the
    unknown-country error; with a registered country, a province that is a
    non-empty string and whose lowering is not among that country's
    provinces makes it return the unknown-province error. In both cases
    the trace is empty: no request is sent. *)
Theorem search_unknown_location_rejected (w : World) (command : string)
    (q : InterpretedQuery) :
  interpreted (interpret_command w command) q ->
  (forall c,
     country q = Some c -> c <> "" -> LOCATION_DATA !! Str.lower c = None ->
     run (search w command)
     = (Returns (Error ("Negara tidak dikenal: " +:+ c) None), []))
  /\ (forall c entry p,
        country q = Some c -> LOCATION_DATA !! Str.lower c = Some entry ->
        province q = Some p -> p <> "" -> provinces entry !! Str.lower p = None ->
        run (search w command)
        = (Returns (Error ("Provinsi/Negara Bagian tidak dikenal '" +:+ p
                           +:+ "' untuk " +:+ c) None), [])).
Proof.
  intros Hq. split.
  - intros c. by apply search_unknown_country.
  - intros c entry p. by apply search_unknown_province.
Qed.

Lemma search_unknown_location_rejected_witness :
  run (search (query_world (query (Some "brazil") (Some "texas") None)) "ranches in Brazil")
  = (Returns (Error "Negara tidak dikenal: brazil" None), [])
  /\ run (search (query_world (query (Some "canada") (Some "texas") None)) "Texas, Canada")
     = (Returns (Error "Provinsi/Negara Bagian tidak dikenal 'texas' untuk canada" None), []).
Proof.
  split.
  - apply (proj1 (search_unknown_location_rejected
                    (query_world (query (Some "brazil") (Some "texas") None))
                    "ranches in Brazil" (query (Some "brazil") (Some "texas") None)
                    ltac:(by repeat split)) "brazil").
    + reflexivity.
    + discriminate.
    + reflexivity.
  - eapply (proj2 (search_unknown_location_rejected
                     (query_world (query (Some "canada") (Some "texas") None))
                     "Texas, Canada" (query (Some "canada") (Some "texas") None)
                     ltac:(by repeat split)) "canada" _ "texas").
    + reflexivity.
    + reflexivity.
    + reflexivity.
    + discriminate.
    + reflexivity.
Defined.

(** C3 as stated fails: the empty string is a country that is present and
    is not a key of the registry, yet [search] sends the request, with the
    empty location, and returns what retrieval returns. *)
Lemma search_empty_country_is_unfiltered :
  interpret_command (query_world (query (Some "") None None)) "ranches"
  = json_of_query (query (Some "") None None)
  /\ LOCATION_DATA !! "" = None
  /\ run (search (query_world (query (Some "") None None)) "ranches")
     = (Returns (Table [] []),
        [EvGet base_url {| param_l := ""; param_v := JStr "" |}]).
Proof. split; [reflexivity | split; reflexivity]. Qed.

(** C4. With a country whose lowering is a key of the registry: a province
    whose lowering is a key of that country's provinces gives the request
    the location [api_code ++ "|" ++ code]; no province gives it
    [api_code ++ "|"]. The lookups are made on the lowered input and are
    exact: a non-empty name whose lowering is not a key is a miss, for the
    country and for the province, and no request is sent. (The keys of the
    registry are their own lowerings, [registry_well_formed].) *)
Theorem search_builds_location (w : World) (command : string)
    (q : InterpretedQuery) (c : string) :
  interpreted (interpret_command w command) q ->
  country q = Some c ->
  (forall entry p code,
     LOCATION_DATA !! Str.lower c = Some entry ->
     province q = Some p -> provinces entry !! Str.lower p = Some code ->
     searches_with w command
       {| param_l := api_code entry +:+ "|" +:+ code;
          param_v := JStr (default "" (name q)) |})
  /\ (forall entry,
        LOCATION_DATA !! Str.lower c = Some entry -> province q = None ->
        searches_with w command
          {| param_l := api_code entry +:+ "|";
             param_v := JStr (default "" (name q)) |})
  /\ (c <> "" -> LOCATION_DATA !! Str.lower c = None ->
      http_calls (run (search w command)).2 = [])
  /\ (forall entry p,
        LOCATION_DATA !! Str.lower c = Some entry ->
        province q = Some p -> p <> "" -> provinces entry !! Str.lower p = None ->
        http_calls (run (search w command)).2 = []).
Proof.
  intros Hq Hc. split; [| split; [| split]].
  - intros entry p code Hentry Hp Hcode.
    exact (search_registered_pair w command q Hq c entry p code Hc Hentry Hp Hcode).
  - intros entry Hentry Hp.
    exact (search_registered_country w command q Hq c entry Hc Hentry (or_introl Hp)).
  - intros Hne Hmiss.
    by rewrite (search_unknown_country w command q Hq c Hc Hne Hmiss).
  - intros entry p Hentry Hp Hne Hmiss.
    by rewrite (search_unknown_province w command q Hq c entry p Hc Hentry Hp Hne Hmiss).
Qed.

Lemma search_builds_location_witness :
  searches_with (query_world (query (Some "Canada") (Some "ALBERTA") (Some "Circle M")))
    "Circle M in Alberta" {| param_l := "Canada|AB"; param_v := JStr "Circle M" |}
  /\ searches_with (query_world (query (Some "United States") None None))
       "all of the US" {| param_l := "United States|"; param_v := JStr "" |}
  /\ http_calls (run (search (query_world (query (Some "canad") None None)) "canad")).2 = []
  /\ http_calls (run (search (query_world (query (Some "canada") (Some "alber") None))
                        "alber")).2 = [].
Proof.
  split; [| split; [| split]].
  - eapply (proj1 (search_builds_location
                     (query_world (query (Some "Canada") (Some "ALBERTA") (Some "Circle M")))
                     "Circle M in Alberta"
                     (query (Some "Canada") (Some "ALBERTA") (Some "Circle M"))
                     "Canada" ltac:(by repeat split) eq_refl) (entry_of "canada") "ALBERTA" "AB").
    + reflexivity.
    + reflexivity.
    + reflexivity.
  - eapply (proj1 (proj2 (search_builds_location
                     (query_world (query (Some "United States") None None))
                     "all of the US" (query (Some "United States") None None)
                     "United States" ltac:(by repeat split) eq_refl)) (entry_of "united states")).
    + reflexivity.
    + reflexivity.
  - apply (proj1 (proj2 (proj2 (search_builds_location
                     (query_world (query (Some "canad") None None))
                     "canad" (query (Some "canad") None None)
                     "canad" ltac:(by repeat split) eq_refl)))).
    + discriminate.
    + reflexivity.
  - eapply (proj2 (proj2 (proj2 (search_builds_location
                     (query_world (query (Some "canada") (Some "alber") None))
                     "alber" (query (Some "canada") (Some "alber") None)
                     "canada" ltac:(by repeat split) eq_refl))) _ "alber").
    + reflexivity.
    + reflexivity.
    + discriminate.
    + reflexivity.
Defined.

(** The lowering is Python's on the names the lookups see: a province
    written with the Kelvin sign for its first letter is Kansas. *)
Lemma search_kelvin_province :
  Str.lower kelvin_ansas = "kansas"
  /\ run (search (query_world (query (Some "United States") (Some kelvin_ansas) None))
            "ranches in Kansas")
     = (Returns (Table [] []),
        [EvGet base_url {| param_l := "United States|KS"; param_v := JStr "" |}]).
Proof. split; reflexivity. Qed.

(** C9. Without a country the request goes out with the empty location.
    Whatever the query, a request that goes out carries as [v] the name as
    it is, and the empty string when there is no name. *)
Theorem search_name_passthrough (w : World) (command : string) (q : InterpretedQuery) :
  interpreted (interpret_command w command) q ->
  (country q = None ->
     searches_with w command
       {| param_l := ""; param_v := JStr (default "" (name q)) |})
  /\ (http_calls (run (search w command)).2 = []
      \/ exists l,
           http_calls (run (search w command)).2
           = [{| param_l := l; param_v := JStr (default "" (name q)) |}]).
Proof.
  intros Hq. split.
  - intros Hc. exact (search_unfiltered w command q Hq (or_introl Hc)).
  - destruct (search_query_total w command q Hq) as (res & tr & -> & Hcalls).
    exact Hcalls.
Qed.

Lemma search_name_passthrough_witness :
  searches_with (query_world (query None None (Some "Circle M")))
    "Circle M" {| param_l := ""; param_v := JStr "Circle M" |}
  /\ searches_with (query_world (query None (Some "texas") None))
       "anything" {| param_l := ""; param_v := JStr "" |}.
Proof.
  split.
  - apply (proj1 (search_name_passthrough
                    (query_world (query None None (Some "Circle M"))) "Circle M"
                    (query None None (Some "Circle M")) ltac:(by repeat split))).
    reflexivity.
  - apply (proj1 (search_name_passthrough
                    (query_world (query None (Some "texas") None)) "anything"
                    (query None (Some "texas") None) ltac:(by repeat split))).
    reflexivity.
Defined.

(** C10. A country that is the empty string is treated as no country: the
    request goes out with the empty location. With a registered country,
    a province that is the empty string is treated as no province: the
    request goes out with [api_code ++ "|"]. In both cases [search]
    returns what retrieval returns. *)
Theorem search_empty_string_is_absent (w : World) (command : string)
    (q : InterpretedQuery) :
  interpreted (interpret_command w command) q ->
  (country q = Some "" ->
     searches_with w command
       {| param_l := ""; param_v := JStr (default "" (name q)) |})
  /\ (forall c entry,
        country q = Some c -> LOCATION_DATA !! Str.lower c = Some entry ->
        province q = Some "" ->
        searches_with w command
          {| param_l := api_code entry +:+ "|";
             param_v := JStr (default "" (name q)) |}).
Proof.
  intros Hq. split.
  - intros Hc. exact (search_unfiltered w command q Hq (or_intror Hc)).
  - intros c entry Hc Hentry Hp.
    exact (search_registered_country w command q Hq c entry Hc Hentry (or_intror Hp)).
Qed.

Lemma search_empty_string_is_absent_witness :
  searches_with (query_world (query (Some "") (Some "texas") (Some "Creek")))
    "Creek" {| param_l := ""; param_v := JStr "Creek" |}
  /\ searches_with (query_world (query (Some "argentina") (Some "") None))
       "argentina any?" {| param_l := "Argentina|"; param_v := JStr "" |}.
Proof.
  split.
  - apply (proj1 (search_empty_string_is_absent
                    (query_world (query (Some "") (Some "texas") (Some "Creek"))) "Creek"
                    (query (Some "") (Some "texas") (Some "Creek")) ltac:(by repeat split))).
    reflexivity.
  - eapply (proj2 (search_empty_string_is_absent
                     (query_world (query (Some "argentina") (Some "") None))
                     "argentina any?" (query (Some "argentina") (Some "") None) ltac:(by repeat split))
              "argentina" (entry_of "argentina")).
    + reflexivity.
    + reflexivity.
    + reflexivity.
Defined.

(** C7 at a reply the code does not survive: when the model answers
    [null], [json.loads] gives [None], the guard [not parsed_query] holds
    and [parsed_query.get] raises; the [AttributeError] leaves [search]
    and the caller receives no dict. *)
Theorem search_null_reply_raises :
  interpret_command (sample_world (Returns JNull)
                       (Returns (sample_response 200 sentinel_page)) no_tables)
    "Find all ranches in Texas" = JNull
  /\ run (search (sample_world (Returns JNull)
                    (Returns (sample_response 200 sentinel_page)) no_tables)
            "Find all ranches in Texas")
     = (Raises (AttributeError "'NoneType' object has no attribute 'get'"), []).
Proof. split; reflexivity. Qed.

(** ** Further properties of retrieval *)

Lemma extraction_prefix w html flavors df_list :
  extraction w html flavors df_list -> flavors `prefix_of` (Some <$> parsers) ++ [None].
Proof.
  intros [pre f post dfs Hsplit _ _ | dfs _ _ | _ _]; [| done | done].
  rewrite Hsplit. exists ((Some <$> post) ++ [None]).
  rewrite !fmap_app, <- !app_assoc. reflexivity.
Qed.

(** X1. [_call_api] never lets an exception out: every run returns a dict.
    It calls [requests.get] once, on [base_url] with the parameters given
    (what that one call sends, a redirect followed for instance, is the
    library's business and is not counted), and after it come only
    table-reading attempts, all on one text, whose flavors form a
    beginning of the list html5lib, bs4, lxml, none. *)
Theorem call_api_always_returns (w : World) (params : Params) :
  exists res html flavors,
    run (_call_api w params)
    = (Returns res, EvGet base_url params :: (EvReadHtml html <$> flavors))
    /\ flavors `prefix_of` (Some <$> parsers) ++ [None].
Proof.
  unfold run.
  destruct (http_get w base_url params) as [r|e] eqn:Hget.
  - destruct (raise_for_status r) as [[]|e] eqn:Hok.
    + destruct (Str.any_in no_results_indicators (text r)) eqn:Hany.
      * exists (Table [] []), "", []. split; [| apply prefix_nil].
        by rewrite (call_api_sentinel w params r Hget Hok).
      * destruct (call_api_extracts w params r Hget Hok [] Hany)
          as (flavors & df_list & pe & Hext & Hrun).
        eexists _, (text r), flavors. split; [exact Hrun |].
        by apply (extraction_prefix w (text r) flavors df_list).
    + unfold _call_api. eff_unfold. rewrite Hget, Hok.
      destruct (is_request_exception e); eexists _, "", []; (split; [done | apply prefix_nil]).
  - unfold _call_api. eff_unfold. rewrite Hget.
    destruct (is_request_exception e); eexists _, "", []; (split; [done | apply prefix_nil]).
Qed.

Lemma raise_for_status_raised r e :
  raise_for_status r = Raises e -> 400 <= status_code r < 600.
Proof.
  intros Hr. destruct (decide (400 <= status_code r < 600)) as [|Hout]; [done |].
  rewrite (raise_for_status_passes r Hout) in Hr. discriminate.
Qed.

Lemma raise_for_status_request_exception r e :
  raise_for_status r = Raises e -> is_request_exception e = true.
Proof.
  unfold raise_for_status. intros Hr.
  destruct ((400 <=? status_code r) && (status_code r <? 500)); [by simplify_eq |].
  destruct ((500 <=? status_code r) && (status_code r <? 600)); by simplify_eq.
Qed.

Ltac clash H := vm_compute in H; discriminate H.

(** X2. The network error is reported for nothing else: when [_call_api]
    returns ["Gagal menghubungi API: ..."], either [requests.get] raised a
    [RequestException] or the response had a status from 400 to 599. *)
Theorem call_api_network_error_only_if (w : World) (params : Params)
    (msg : string) (details : option json) :
  (run (_call_api w params)).1
  = Returns (Error ("Gagal menghubungi API: " +:+ msg) details) ->
  (exists m, http_get w base_url params = Raises (RequestException m))
  \/ (exists r, http_get w base_url params = Returns r /\ 400 <= status_code r < 600).
Proof.
  unfold run. intros Hres.
  destruct (http_get w base_url params) as [r|e] eqn:Hget.
  - right. exists r. split; [done |].
    destruct (raise_for_status r) as [[]|e] eqn:Hok;
      [| by apply (raise_for_status_raised r e)].
    destruct (Str.any_in no_results_indicators (text r)) eqn:Hany.
    + rewrite (call_api_sentinel w params r Hget Hok [] Hany) in Hres. discriminate.
    + destruct (call_api_extracts w params r Hget Hok [] Hany)
        as (flavors & df_list & pe & _ & Hrun).
      rewrite Hrun in Hres. cbn [fst] in Hres. unfold shaped in Hres.
      destruct df_list as [[|df rest]|];
        try destruct (Str.any_in empty_patterns (Str.lower (text r)));
        try discriminate; clash Hres.
  - left. destruct e as [m|m|m|m]; [by exists m | | |];
      unfold _call_api in Hres; eff_unfold; rewrite Hget in Hres; clash Hres.
Qed.

Lemma call_api_network_error_only_if_witness :
  (exists m, http_get world_unreachable base_url sample_params = Raises (RequestException m))
  \/ (exists r, http_get world_unreachable base_url sample_params = Returns r
                /\ 400 <= status_code r < 600).
Proof.
  apply (call_api_network_error_only_if world_unreachable sample_params
           "Connection refused" None).
  reflexivity.
Defined.

(** X3. The parse error is reported only for a page that was fetched with
    a passing status, holds none of the sentinels of
    [no_results_indicators] and, lowered, none of [empty_patterns], and
    from which the table-reading attempts brought no table. *)
Theorem call_api_parse_error_only_if (w : World) (params : Params)
    (cause : string) (details : option json) :
  (run (_call_api w params)).1
  = Returns (Error ("Gagal mem-parsing tabel dari respons API: " +:+ cause) details) ->
  exists r,
    http_get w base_url params = Returns r
    /\ raise_for_status r = Returns tt
    /\ (forall indicator, In indicator no_results_indicators ->
                          ~ substring indicator (text r))
    /\ (forall pattern, In pattern empty_patterns ->
                        ~ substring pattern (Str.lower (text r)))
    /\ exists flavors df_list,
         extraction w (text r) flavors df_list
         /\ (df_list = None \/ df_list = Some []).
Proof.
  unfold run. intros Hres.
  destruct (http_get w base_url params) as [r|e] eqn:Hget.
  - destruct (raise_for_status r) as [[]|e] eqn:Hok.
    + destruct (Str.any_in no_results_indicators (text r)) eqn:Hany.
      * rewrite (call_api_sentinel w params r Hget Hok [] Hany) in Hres. discriminate.
      * destruct (call_api_extracts w params r Hget Hok [] Hany)
          as (flavors & df_list & pe & Hext & Hrun).
        rewrite Hrun in Hres. cbn [fst] in Hres. unfold shaped in Hres.
        exists r. split; [done |]. split; [done |].
        split; [by apply any_in_false |].
        destruct (Str.any_in empty_patterns (Str.lower (text r))) eqn:Hpat.
        -- destruct df_list as [[|df rest]|]; discriminate.
        -- split; [by apply any_in_false |]. exists flavors, df_list.
           split; [done |]. destruct df_list as [[|df rest]|]; [by right | | by left].
           discriminate.
    + unfold _call_api in Hres. eff_unfold. rewrite Hget, Hok in Hres.
      rewrite (raise_for_status_request_exception r e Hok) in Hres. clash Hres.
  - unfold _call_api in Hres. eff_unfold. rewrite Hget in Hres.
    destruct (is_request_exception e); clash Hres.
Qed.

Lemma call_api_parse_error_only_if_witness :
  exists r,
    http_get (sample_world (Returns JNull)
                (Returns (sample_response 200 "<div>Welcome</div>")) no_tables)
      base_url sample_params = Returns r
    /\ raise_for_status r = Returns tt
    /\ (forall indicator, In indicator no_results_indicators ->
                          ~ substring indicator (text r))
    /\ (forall pattern, In pattern empty_patterns ->
                        ~ substring pattern (Str.lower (text r)))
    /\ exists flavors df_list,
         extraction (sample_world (Returns JNull)
                       (Returns (sample_response 200 "<div>Welcome</div>")) no_tables)
           (text r) flavors df_list
         /\ (df_list = None \/ df_list = Some []).
Proof.
  apply (call_api_parse_error_only_if _ sample_params "No tables found" None).
  reflexivity.
Defined.

(** ** Further properties of [search] *)

(** X4. When interpretation fails, [search] sends nothing and returns the
    failure dict with the reason as details: ["AI model not available."]
    when there is no model, and ["Failed to parse AI response: ..."] with
    the text of the exception when asking the model or decoding its reply
    raised. *)
Theorem search_interpretation_failure (w : World) (command : string) :
  (ai_model w = None ->
   run (search w command)
   = (Returns (Error "Gagal menafsirkan perintah."
                 (Some (JStr "AI model not available."))), []))
  /\ (forall model e,
        ai_model w = Some model -> model command = Raises e ->
        run (search w command)
        = (Returns (Error "Gagal menafsirkan perintah."
                      (Some (JStr ("Failed to parse AI response: " +:+ exn_str e)))), [])).
Proof.
  split.
  - apply search_model_unavailable.
  - intros model e. apply search_model_raises.
Qed.

Lemma search_interpretation_failure_witness :
  run (search world_unreachable "Find all ranches in Texas")
  = (Returns (Error "Gagal menafsirkan perintah."
                (Some (JStr "AI model not available."))), [])
  /\ run (search (sample_world (Raises (OtherException "Expecting value"))
                    (Returns (sample_response 200 sentinel_page)) no_tables)
            "Find all ranches in Texas")
     = (Returns (Error "Gagal menafsirkan perintah."
                   (Some (JStr "Failed to parse AI response: Expecting value"))), []).
Proof.
  split.
  - apply (proj1 (search_interpretation_failure world_unreachable
                    "Find all ranches in Texas")).
    reflexivity.
  - apply (proj2 (search_interpretation_failure
                    (sample_world (Raises (OtherException "Expecting value"))
                       (Returns (sample_response 200 sentinel_page)) no_tables)
                    "Find all ranches in Texas")
             (fun _ => Raises (OtherException "Expecting value"))
             (OtherException "Expecting value")).
    + reflexivity.
    + reflexivity.
Defined.

Lemma dict_truthy (fields : gmap string json) :
  Py.truthy (JObj fields) = negb (bool_decide (fields = ∅)).
Proof. reflexivity. Qed.

(** X5. A reply that is an empty dict, or a dict with an ["error"] key,
    is reported as a failed interpretation: [search] sends nothing and
    returns the failure dict whose details are the value under ["error"],
    [None] when there is none. *)
Theorem search_error_reply (w : World) (command : string)
    (fields : gmap string json) :
  interpret_command w command = JObj fields ->
  fields = ∅ \/ is_Some (fields !! "error") ->
  run (search w command)
  = (Returns (Error "Gagal menafsirkan perintah."
                (Some (default JNull (fields !! "error")))), []).
Proof.
  intros Hreply Hcase. unfold run, search. rewrite Hreply, dict_truthy.
  destruct (decide (fields = ∅)) as [->|Hne].
  - reflexivity.
  - destruct Hcase as [|Herr]; [done |].
    rewrite (bool_decide_eq_false_2 _ Hne). eff_unfold. cbn [negb Py.contains Py.get].
    by rewrite (bool_decide_eq_true_2 _ Herr).
Qed.

Lemma search_error_reply_witness :
  run (search (sample_world (Returns (JObj {[ "error" := JStr "quota exceeded" ]}))
                 (Returns (sample_response 200 sentinel_page)) no_tables)
         "Find all ranches in Texas")
  = (Returns (Error "Gagal menafsirkan perintah." (Some (JStr "quota exceeded"))), [])
  /\ run (search (sample_world (Returns (JObj ∅))
                    (Returns (sample_response 200 sentinel_page)) no_tables)
            "Find all ranches in Texas")
     = (Returns (Error "Gagal menafsirkan perintah." (Some JNull)), []).
Proof.
  split.
  - refine (search_error_reply
             (sample_world (Returns (JObj {[ "error" := JStr "quota exceeded" ]}))
                (Returns (sample_response 200 sentinel_page)) no_tables)
             "Find all ranches in Texas" {[ "error" := JStr "quota exceeded" ]} _ _).
    + reflexivity.
    + right. by eexists.
  - refine (search_error_reply
              (sample_world (Returns (JObj ∅))
                 (Returns (sample_response 200 sentinel_page)) no_tables)
              "Find all ranches in Texas" ∅ _ _).
    + reflexivity.
    + by left.
Defined.

(** X6. A reply that is not a dict makes [search] raise before anything
    is sent: [None], a boolean, a number, a string or a list all end in an
    exception that leaves [search], and its class is [AttributeError]
    (raised at a [.get]) or [TypeError] (raised at the test
    ["error" in parsed_query], by a boolean or a number that is true). *)
Theorem search_non_dict_reply_raises (w : World) (command : string) :
  (forall fields, interpret_command w command <> JObj fields) ->
  exists msg,
    run (search w command) = (Raises (AttributeError msg), [])
    \/ (run (search w command) = (Raises (TypeError msg), [])
        /\ Py.truthy (interpret_command w command) = true
        /\ ((exists b, interpret_command w command = JBool b)
            \/ (exists n, interpret_command w command = JInt n)
            \/ (exists nz, interpret_command w command = JFloat nz))).
Proof.
  intros Hshape. unfold run, search.
  destruct (interpret_command w command) as [|b|n|nz|s|items|fields].
  - eexists. by left.
  - destruct b; eexists; [right | left]; [| done].
    split; [done |]. split; [done |]. left. by eexists.
  - eff_unfold. cbn [Py.truthy]. destruct (n =? 0); eexists; [by left | right].
    split; [done |]. split; [done |]. right. left. by eexists.
  - destruct nz; eexists; [right | left]; [| done].
    split; [done |]. split; [done |]. right. right. by eexists.
  - eff_unfold. cbn [Py.truthy Py.contains].
    destruct (String.eqb s ""); [eexists; by left |].
    cbn [negb]. destruct (Str.contains "error" s); eexists; by left.
  - eff_unfold. cbn [Py.truthy Py.contains].
    destruct items as [|item items]; [eexists; by left |].
    destruct (existsb _ (item :: items)); eexists; by left.
  - by destruct (Hshape fields).
Qed.

Lemma search_non_dict_reply_raises_witness :
  exists msg,
    run (search (sample_world (Returns (JArr [JStr "canada"]))
                   (Returns (sample_response 200 sentinel_page)) no_tables)
           "ranches in Canada")
    = (Raises (AttributeError msg), []).
Proof.
  destruct (search_non_dict_reply_raises
              (sample_world (Returns (JArr [JStr "canada"]))
                 (Returns (sample_response 200 sentinel_page)) no_tables)
              "ranches in Canada" ltac:(intros fields H; discriminate H))
    as [msg [Hattr | (_ & _ & [[b Hb] | [[n Hn] | [nz Hnz]]])]].
  - exists msg. exact Hattr.
  - discriminate Hb.
  - discriminate Hn.
  - discriminate Hnz.
Defined.

(** X7. A dict that passes the guard and whose country is truthy but not
    a string makes [search] raise at [country.lower()], before anything is
    sent. *)
Theorem search_non_string_country_raises (w : World) (command : string)
    (fields : gmap string json) (v : json) :
  interpret_command w command = JObj fields ->
  fields !! "error" = None ->
  fields !! "country" = Some v ->
  Py.truthy v = true ->
  (forall s, v <> JStr s) ->
  run (search w command) = (Raises (Py.no_attribute v "lower"), []).
Proof.
  intros Hreply Herr Hcountry Htruthy Hstr.
  assert (Hne : fields <> ∅) by (intros ->; by rewrite lookup_empty in Hcountry).
  unfold run, search. rewrite Hreply, dict_truthy, (bool_decide_eq_false_2 _ Hne).
  eff_unfold. cbn [negb Py.contains Py.get].
  rewrite Herr, Hcountry.
  rewrite (bool_decide_eq_false_2 (is_Some None)) by (by intros [? ?]).
  cbn [default]. unfold resolve_location, id. rewrite Htruthy. eff_unfold.
  destruct v; try reflexivity. by destruct (Hstr s).
Qed.

Lemma search_non_string_country_raises_witness :
  run (search (sample_world (Returns (JObj {[ "country" := JInt 5 ]}))
                 (Returns (sample_response 200 sentinel_page)) no_tables)
         "ranches in 5")
  = (Raises (AttributeError "'int' object has no attribute 'lower'"), []).
Proof.
  apply (search_non_string_country_raises
           (sample_world (Returns (JObj {[ "country" := JInt 5 ]}))
              (Returns (sample_response 200 sentinel_page)) no_tables)
           "ranches in 5" {[ "country" := JInt 5 ]} (JInt 5)).
  - reflexivity.
  - reflexivity.
  - reflexivity.
  - reflexivity.
  - intros s H. discriminate H.
Defined.

Lemma resolve_location_trace c p tr : exists o, resolve_location c p tr = (o, tr).
Proof.
  unfold resolve_location. destruct (Py.truthy c); [| by eexists]. eff_unfold.
  destruct (Py.lower_receiver c) as [s|e]; [| by eexists].
  destruct (LOCATION_DATA !! Str.lower s) as [entry|]; [| by eexists].
  destruct (Py.truthy p); [| by eexists].
  destruct (Py.lower_receiver p) as [s'|e]; [| by eexists].
  destruct (provinces entry !! Str.lower s') as [code|]; [| by eexists].
  destruct (String.eqb code ""); by eexists.
Qed.

(** X8. Whatever the model replies and whatever the endpoint does, one
    run of [search] calls [requests.get] at most once (the requests that
    one call sends when it follows redirects are not counted). *)
Theorem search_at_most_one_request (w : World) (command : string) :
  (length (http_calls (run (search w command)).2) <= 1)%nat.
Proof.
  unfold run, search. generalize (interpret_command w command). intros pq.
  eff_unfold.
  assert (Herror : (length (http_calls
            (match Py.get pq "error" with
             | Returns a =>
                 (Returns (Error "Gagal menafsirkan perintah." (Some a)), [])
             | Raises e => (Raises e, [])
             end).2) <= 1)%nat).
  { destruct (Py.get pq "error"); simpl; lia. }
  destruct (negb (Py.truthy pq)); [exact Herror |].
  destruct (Py.contains "error" pq) as [[|]|e]; [exact Herror | | simpl; lia].
  destruct (Py.get pq "name") as [a|]; [| simpl; lia].
  destruct (Py.get pq "country") as [a0|]; [| simpl; lia].
  destruct (Py.get pq "province") as [a1|]; [| simpl; lia].
  destruct (resolve_location_trace a0 a1 []) as [o ->].
  destruct o as [[early|l]|e]; [simpl; lia | | simpl; lia].
  pose proof (call_api_http_calls w
                {| param_l := l; param_v := if Py.truthy a then a else JStr "" |}) as Hc.
  unfold run in Hc. rewrite Hc. simpl. lia.
Qed.

Lemma call_api_no_details w params tr msg details :
  (_call_api w params tr).1 = Returns (Error msg details) -> details = None.
Proof.
  intros Hres.
  destruct (http_get w base_url params) as [r|e] eqn:Hget.
  - destruct (raise_for_status r) as [[]|e] eqn:Hok.
    + destruct (Str.any_in no_results_indicators (text r)) eqn:Hany.
      * rewrite (call_api_sentinel w params r Hget Hok tr Hany) in Hres. discriminate.
      * destruct (call_api_extracts w params r Hget Hok tr Hany)
          as (flavors & df_list & pe & _ & Hrun).
        rewrite Hrun in Hres. cbn [fst] in Hres. unfold shaped in Hres.
        revert Hres.
        destruct df_list as [[|df rest]|];
          try destruct (Str.any_in empty_patterns (Str.lower (text r)));
          intros Hres; by simplify_eq.
    + unfold _call_api in Hres. eff_unfold. rewrite Hget, Hok in Hres.
      revert Hres. destruct (is_request_exception e); intros Hres; cbn in Hres; by simplify_eq.
  - unfold _call_api in Hres. eff_unfold. rewrite Hget in Hres.
    revert Hres. destruct (is_request_exception e); intros Hres; cbn in Hres; by simplify_eq.
Qed.

Lemma resolve_location_no_details c p tr tr' msg details :
  resolve_location c p tr = (Returns (inl (Error msg details)), tr') -> details = None.
Proof.
  unfold resolve_location. eff_unfold.
  repeat match goal with
         | |- context [match ?x with _ => _ end] => destruct x
         end;
    intros H; cbn in H; by simplify_eq.
Qed.

(** X9. On a reply that reads as a query (a dict whose country, province
    and name are strings or absent) [search] never raises: it returns a
    dict, and when that dict is an error it has no ["details"] entry. *)
Theorem search_query_returns (w : World) (command : string) (q : InterpretedQuery) :
  interpreted (interpret_command w command) q ->
  exists res tr,
    run (search w command) = (Returns res, tr)
    /\ forall msg details, res = Error msg details -> details = None.
Proof.
  intros Hq. unfold run. rewrite (search_query w command q Hq).
  destruct (resolve_location_query (country q) (province q) []) as [[early|l] Hres].
  - rewrite Hres. exists early, []. split; [done |].
    intros msg details ->. exact (resolve_location_no_details _ _ _ _ _ _ Hres).
  - rewrite Hres.
    destruct (call_api_total w {| param_l := l; param_v := JStr (default "" (name q)) |} [])
      as (res & rest & Hrun & _).
    exists res, ([] ++ EvGet base_url
                   {| param_l := l; param_v := JStr (default "" (name q)) |} :: rest).
    split; [exact Hrun |]. intros msg details ->.
    apply (call_api_no_details w
             {| param_l := l; param_v := JStr (default "" (name q)) |} [] msg details).
    by rewrite Hrun.
Qed.

Lemma search_query_returns_witness :
  exists res tr,
    run (search (query_world (query (Some "canada") (Some "texas") None)) "Texas, Canada")
    = (Returns res, tr)
    /\ forall msg details, res = Error msg details -> details = None.
Proof.
  apply (search_query_returns
           (query_world (query (Some "canada") (Some "texas") None)) "Texas, Canada"
           (query (Some "canada") (Some "texas") None)).
  by repeat split.
Defined.

(** ** Further properties of the registry *)

Lemma registry_api_codes :
  map_Forall (fun key entry => Str.lower (api_code entry) = key) LOCATION_DATA.
Proof. apply (bool_decide_unpack _). vm_compute. reflexivity. Qed.

(** X10. The code a country is sent under is itself accepted as the name
    of that country: a query whose country is the [api_code] of a
    registered entry, with no province, is sent with that entry's
    [api_code ++ "|"]. *)
Theorem search_accepts_api_code (w : World) (command : string)
    (q : InterpretedQuery) (key : string) (entry : LocationEntry) :
  interpreted (interpret_command w command) q ->
  LOCATION_DATA !! key = Some entry ->
  country q = Some (api_code entry) ->
  province q = None ->
  searches_with w command
    {| param_l := api_code entry +:+ "|"; param_v := JStr (default "" (name q)) |}.
Proof.
  intros Hq Hentry Hc Hp.
  apply (search_registered_country w command q Hq (api_code entry) entry Hc); [| by left].
  by rewrite (registry_api_codes key entry Hentry).
Qed.

Lemma search_accepts_api_code_witness :
  searches_with (query_world (query (Some "United States") None (Some "Creek")))
    "Creek in the United States"
    {| param_l := "United States|"; param_v := JStr "Creek" |}.
Proof.
  apply (search_accepts_api_code
           (query_world (query (Some "United States") None (Some "Creek")))
           "Creek in the United States"
           (query (Some "United States") None (Some "Creek"))
           "united states" (entry_of "united states")).
  - by repeat split.
  - reflexivity.
  - reflexivity.
  - reflexivity.
Defined.

Lemma registry_locations_distinct :
  map_Forall (fun k1 e1 =>
    map_Forall (fun p1 c1 =>
      map_Forall (fun k2 e2 =>
        map_Forall (fun p2 c2 =>
          api_code e1 +:+ "|" +:+ c1 = api_code e2 +:+ "|" +:+ c2 ->
          k1 = k2 /\ p1 = p2) (provinces e2)) LOCATION_DATA) (provinces e1)) LOCATION_DATA.
Proof. apply (bool_decide_unpack _). vm_compute. reflexivity. Qed.

(** X11. No two registered (country, province) pairs are sent under the
    same location string: the string [api_code ++ "|" ++ code] determines
    the country key and the province key. *)
Theorem location_string_determines_pair
    (k1 k2 p1 p2 c1 c2 : string) (e1 e2 : LocationEntry) :
  LOCATION_DATA !! k1 = Some e1 -> provinces e1 !! p1 = Some c1 ->
  LOCATION_DATA !! k2 = Some e2 -> provinces e2 !! p2 = Some c2 ->
  api_code e1 +:+ "|" +:+ c1 = api_code e2 +:+ "|" +:+ c2 ->
  k1 = k2 /\ p1 = p2.
Proof.
  intros Hk1 Hp1 Hk2 Hp2.
  exact (registry_locations_distinct k1 e1 Hk1 p1 c1 Hp1 k2 e2 Hk2 p2 c2 Hp2).
Qed.

Lemma location_string_determines_pair_witness :
  "canada" = "canada" /\ "alberta" = "alberta".
Proof.
  apply (location_string_determines_pair "canada" "canada" "alberta" "alberta" "AB" "AB"
           (entry_of "canada") (entry_of "canada")).
  - reflexivity.
  - reflexivity.
  - reflexivity.
  - reflexivity.
  - reflexivity.
Defined.

(** ** Cleaning the model's reply *)

Section Replace.

Lemma starts_with_cons a n b h :
  Str.starts_with (String a n) (String b h)
  = if Ascii.eqb a b then Str.starts_with n h else false.
Proof. reflexivity. Qed.

Lemma contains_cons needle b h :
  Str.contains needle (String b h)
  = Str.starts_with needle (String b h) || Str.contains needle h.
Proof. reflexivity. Qed.

Lemma append_assoc (s t u : string) : (s +:+ t) +:+ u = s +:+ (t +:+ u).
Proof. induction s as [|c s IH]; [done | by rewrite !append_cons, IH]. Qed.

Lemma append_empty_r (s : string) : s +:+ "" = s.
Proof. induction s as [|c s IH]; [done | by rewrite append_cons, IH]. Qed.

(** A text without the first character of [old] holds no occurrence. *)
Lemma replace_from_app_free h old' new body rest :
  Str.contains (String h "") body = false ->
  Text.replace_from (String h old') new 0 (body +:+ rest)
  = body +:+ Text.replace_from (String h old') new 0 rest.
Proof.
  induction body as [|c body IH]; intros Hfree; [done |].
  rewrite contains_cons, starts_with_cons in Hfree.
  apply orb_false_iff in Hfree as [Hc Hbody].
  rewrite !append_cons. cbn [Text.replace_from].
  rewrite starts_with_cons.
  destruct (Ascii.eqb h c); [discriminate Hc |]. by rewrite IH.
Qed.

Lemma replace_from_free h old' new s :
  Str.contains (String h "") s = false ->
  Text.replace_from (String h old') new 0 s = s.
Proof.
  intros Hfree.
  rewrite <- (append_empty_r s) at 1.
  rewrite (replace_from_app_free h old' new s "" Hfree). apply append_empty_r.
Qed.

Variable a : ascii.

Let triple : string := String a (String a (String a "")).
Let double : string := String a (String a "").
Let single : string := String a "".

Lemma removed_head t :
  Str.starts_with single (Text.replace_from triple "" 0 t) = true ->
  Str.starts_with single t = true.
Proof.
  destruct t as [|c t]; [done |]. cbn [Text.replace_from].
  destruct (Str.starts_with triple (String c t)) eqn:Hocc.
  - intros _. unfold triple, single in *. rewrite starts_with_cons in *.
    by destruct (Ascii.eqb a c).
  - done.
Qed.

Lemma removed_head2 t :
  Str.starts_with double (Text.replace_from triple "" 0 t) = true ->
  Str.starts_with double t = true.
Proof.
  destruct t as [|c t]; [done |]. cbn [Text.replace_from].
  destruct (Str.starts_with triple (String c t)) eqn:Hocc.
  - intros _. unfold triple, double in *. rewrite starts_with_cons in *.
    destruct (Ascii.eqb a c); [| done].
    destruct t as [|c' t]; [done |]. rewrite starts_with_cons in *.
    by destruct (Ascii.eqb a c').
  - unfold double. rewrite !starts_with_cons.
    destruct (Ascii.eqb a c); [| done]. apply removed_head.
Qed.

(** Removing every run of three leaves no run of three. *)
Lemma replace_from_no_triple k s :
  Str.contains triple (Text.replace_from triple "" k s) = false.
Proof.
  revert k. induction s as [|c s IH]; intros k; [done |].
  cbn [Text.replace_from]. destruct k as [|k]; [| apply IH].
  destruct (Str.starts_with triple (String c s)) eqn:Hocc; [apply IH |].
  rewrite contains_cons, IH, orb_false_r.
  unfold triple in *. rewrite starts_with_cons in *.
  destruct (Ascii.eqb a c); [| done].
  destruct (Str.starts_with (String a (String a ""))
              (Text.replace_from (String a (String a (String a ""))) "" 0 s)) eqn:Hout;
    [| done].
  apply removed_head2 in Hout. unfold double in Hout. congruence.
Qed.

End Replace.

(** X12. Whatever the model answers, the cleaned reply holds no code
    fence: no run of three backquotes is left in [clean_response text]. *)
Theorem clean_response_no_fence (text : string) :
  Str.contains Text.fence (Text.clean_response text) = false
  /\ ~ substring Text.fence (Text.clean_response text).
Proof.
  assert (Hnone : Str.contains Text.fence (Text.clean_response text) = false).
  { change (Text.clean_response text)
      with (Text.replace_from "```" "" 0
              (Text.replace Text.json_fence "" (Text.strip text))).
    change Text.fence with (String "`" (String "`" (String "`" ""))).
    apply (replace_from_no_triple "`"%char). }
  split; [exact Hnone |].
  intros Hsub. apply contains_spec in Hsub. congruence.
Qed.

Section Strip.

(** How a white text begins. *)
Lemma all_space_induction (P : string -> Prop) :
  P "" ->
  (forall c t, Text.is_space c = true -> P t -> P (String c t)) ->
  (forall c c1 t, Text.is_space c = false -> Text.is_space2 c c1 = true ->
                  P t -> P (String c (String c1 t))) ->
  (forall c c1 c2 t, Text.is_space c = false -> Text.is_space2 c c1 = false ->
                     Text.is_space3 c c1 c2 = true ->
                     P t -> P (String c (String c1 (String c2 t)))) ->
  forall s, Text.all_space s = true -> P s.
Proof.
  intros H0 H1 H2 H3.
  assert (Hn : forall (n : nat) s, (String.length s <= n)%nat ->
                                   Text.all_space s = true -> P s).
  { induction n as [|n IH]; intros s Hlen.
    - destruct s; [done | simpl in Hlen; lia].
    - destruct s as [|c t]; [done |]. cbn [Text.all_space].
      simpl in Hlen.
      destruct (Text.is_space c) eqn:Hc.
      { intros Ht. apply H1; [done |]. apply IH; [lia | done]. }
      destruct t as [|c1 t1]; [done |]. simpl in Hlen.
      destruct (Text.is_space2 c c1) eqn:Hc1.
      { intros Ht. apply H2; [done.. |]. apply IH; [lia | done]. }
      destruct t1 as [|c2 t2]; [done |]. simpl in Hlen.
      destruct (Text.is_space3 c c1 c2) eqn:Hc2; [| done].
      intros Ht. apply H3; [done.. |]. apply IH; [lia | done]. }
  intros s. by apply (Hn (String.length s)).
Qed.

(** The bytes of a white-space character: an ASCII space character, or a
    byte of a character outside ASCII. *)
Lemma is_space2_bytes c c1 :
  Text.is_space2 c c1 = true ->
  (128 <=? Ascii.N_of_ascii c)%N = true /\ (128 <=? Ascii.N_of_ascii c1)%N = true.
Proof.
  unfold Text.is_space2, Str.is_byte.
  rewrite andb_true_iff, orb_true_iff, !N.eqb_eq, !N.leb_le. lia.
Qed.

Lemma is_space3_bytes c c1 c2 :
  Text.is_space3 c c1 c2 = true ->
  (128 <=? Ascii.N_of_ascii c)%N = true /\ (128 <=? Ascii.N_of_ascii c1)%N = true
  /\ (128 <=? Ascii.N_of_ascii c2)%N = true.
Proof.
  unfold Text.is_space3, Str.is_byte. cbv zeta.
  rewrite !orb_true_iff, !andb_true_iff, !orb_true_iff, !andb_true_iff,
    !N.eqb_eq, !N.leb_le. lia.
Qed.

Lemma backquote_not_space c : Text.is_space c = true -> Ascii.eqb "`" c = false.
Proof.
  intros H. destruct (Ascii.eqb_spec "`" c) as [<-|]; [discriminate H | done].
Qed.

Lemma backquote_is_ascii c : (128 <=? Ascii.N_of_ascii c)%N = true -> Ascii.eqb "`" c = false.
Proof.
  intros H. destruct (Ascii.eqb_spec "`" c) as [<-|]; [discriminate H | done].
Qed.

Lemma contains_char_cons h c s :
  Str.contains (String h "") (String c s) = Ascii.eqb h c || Str.contains (String h "") s.
Proof. rewrite contains_cons, starts_with_cons. by destruct (Ascii.eqb h c). Qed.

(** A white text holds no backquote. *)
Lemma all_space_free ws : Text.all_space ws = true -> Str.contains "`" ws = false.
Proof.
  revert ws. apply all_space_induction.
  - done.
  - intros c t Hc IH. by rewrite contains_char_cons, (backquote_not_space c Hc), IH.
  - intros c c1 t _ Hc IH. apply is_space2_bytes in Hc as [Hb Hb1].
    by rewrite !contains_char_cons, (backquote_is_ascii c Hb), (backquote_is_ascii c1 Hb1), IH.
  - intros c c1 c2 t _ _ Hc IH. apply is_space3_bytes in Hc as (Hb & Hb1 & Hb2).
    by rewrite !contains_char_cons, (backquote_is_ascii c Hb), (backquote_is_ascii c1 Hb1),
      (backquote_is_ascii c2 Hb2), IH.
Qed.

Lemma rstrip_spaces ws : Text.all_space ws = true -> Text.rstrip ws = "".
Proof.
  destruct ws as [|c ws]; [done |]. intros Hws. cbn [Text.rstrip]. by rewrite Hws.
Qed.

Lemma lstrip_backquote s : Text.lstrip (String "`" s) = String "`" s.
Proof. destruct s as [|c1 [|c2 t2]]; reflexivity. Qed.

Lemma lstrip_spaces ws s :
  Text.all_space ws = true ->
  Text.lstrip (ws +:+ String "`" s) = String "`" s.
Proof.
  revert ws. apply all_space_induction.
  - apply lstrip_backquote.
  - intros c t Hc IH. rewrite append_cons. cbn [Text.lstrip]. by rewrite Hc.
  - intros c c1 t Hc Hc1 IH. rewrite !append_cons. cbn [Text.lstrip]. by rewrite Hc, Hc1.
  - intros c c1 c2 t Hc Hc1 Hc2 IH. rewrite !append_cons. cbn [Text.lstrip].
    by rewrite Hc, Hc1, Hc2.
Qed.

Lemma rstrip_keep s ws :
  Text.all_space ws = true ->
  Text.rstrip (s +:+ String "`" ws) = s +:+ String "`" "".
Proof.
  intros Hws.
  assert (Hout : forall u, Text.all_space (u +:+ String "`" ws) = false).
  { intros u. apply not_true_iff_false. intros Hall. apply all_space_free in Hall.
    revert Hall. induction u as [|b u IH].
    - change ("" +:+ String "`" ws) with (String "`" ws). by rewrite contains_char_cons.
    - rewrite append_cons, contains_char_cons. intros [_ H]%orb_false_iff. by apply IH. }
  induction s as [|b s IH].
  - change ("" +:+ String "`" ws) with (String "`" ws). cbn [Text.rstrip].
    pose proof (Hout "") as Hhead.
    change ("" +:+ String "`" ws) with (String "`" ws) in Hhead.
    rewrite Hhead, (rstrip_spaces ws Hws). reflexivity.
  - rewrite !append_cons. cbn [Text.rstrip].
    pose proof (Hout (String b s)) as Hhead. rewrite append_cons in Hhead.
    rewrite Hhead, IH. reflexivity.
Qed.

Lemma lstrip_free h s :
  Str.contains (String h "") s = false -> Str.contains (String h "") (Text.lstrip s) = false.
Proof.
  assert (Hn : forall (n : nat) s, (String.length s <= n)%nat ->
            Str.contains (String h "") s = false ->
            Str.contains (String h "") (Text.lstrip s) = false).
  { clear s. induction n as [|n IH]; intros s Hlen Hfree.
    - destruct s; [done | simpl in Hlen; lia].
    - destruct s as [|c t]; [done |]. cbn [Text.lstrip]. simpl in Hlen.
      pose proof Hfree as Ht. rewrite contains_char_cons in Ht.
      apply orb_false_iff in Ht as [_ Ht].
      destruct (Text.is_space c); [apply IH; [lia | done] |].
      destruct t as [|c1 t1]; [done |]. simpl in Hlen.
      pose proof Ht as Ht1. rewrite contains_char_cons in Ht1.
      apply orb_false_iff in Ht1 as [_ Ht1].
      destruct (Text.is_space2 c c1); [apply IH; [lia | done] |].
      destruct t1 as [|c2 t2]; [done |]. simpl in Hlen.
      pose proof Ht1 as Ht2. rewrite contains_char_cons in Ht2.
      apply orb_false_iff in Ht2 as [_ Ht2].
      destruct (Text.is_space3 c c1 c2); [apply IH; [lia | done] | done]. }
  by apply (Hn (String.length s)).
Qed.

Lemma rstrip_free h s :
  Str.contains (String h "") s = false -> Str.contains (String h "") (Text.rstrip s) = false.
Proof.
  induction s as [|c s IH]; [done |]. intros Hfree.
  rewrite contains_char_cons in Hfree. apply orb_false_iff in Hfree as [Hc Hs].
  cbn [Text.rstrip]. destruct (Text.all_space (String c s)); [done |].
  by rewrite contains_char_cons, Hc, (IH Hs).
Qed.

End Strip.

(** X13. A reply without any backquote is only stripped, of the white
    space of Unicode at its two ends: the two replacements change
    nothing. *)
Theorem clean_response_plain (text : string) :
  ~ substring "`" text -> Text.clean_response text = Text.strip text.
Proof.
  intros Hfree.
  assert (Hc : Str.contains "`" text = false).
  { apply not_true_iff_false. intros H. by apply Hfree, contains_spec. }
  assert (Hs : Str.contains "`" (Text.strip text) = false).
  { unfold Text.strip. by apply rstrip_free, lstrip_free. }
  change (Text.clean_response text)
    with (Text.replace_from "```" "" 0
            (Text.replace_from "```json" "" 0 (Text.strip text))).
  rewrite (replace_from_free "`" "``json" "" _ Hs).
  by rewrite (replace_from_free "`" "``" "" _ Hs).
Qed.

Lemma clean_response_plain_witness :
  Text.clean_response (nbsp +:+ " {'country': 'canada'}
" +:+ nbsp) = "{'country': 'canada'}".
Proof.
  refine (clean_response_plain (nbsp +:+ " {'country': 'canada'}
" +:+ nbsp) _).
  apply any_in_false with (patterns := ["`"]); [reflexivity | simpl; auto].
Defined.

(** X14. A reply wrapped in a json code fence, with any white space
    around the fences, is cleaned to what stands between the fences,
    provided that part holds no backquote. *)
Theorem clean_response_fenced (ws1 body ws2 : string) :
  Text.all_space ws1 = true -> Text.all_space ws2 = true ->
  ~ substring "`" body ->
  Text.clean_response (ws1 +:+ Text.json_fence +:+ body +:+ Text.fence +:+ ws2) = body.
Proof.
  intros Hws1 Hws2 Hfree.
  assert (Hc : Str.contains "`" body = false).
  { apply not_true_iff_false. intros H. by apply Hfree, contains_spec. }
  assert (Hstrip : Text.strip (ws1 +:+ Text.json_fence +:+ body +:+ Text.fence +:+ ws2)
                   = "```json" +:+ body +:+ "```").
  { unfold Text.strip.
    change (ws1 +:+ Text.json_fence +:+ body +:+ Text.fence +:+ ws2)
      with (ws1 +:+ String "`" ("``json" +:+ body +:+ "```" +:+ ws2)).
    rewrite (lstrip_spaces ws1 _ Hws1).
    replace (String "`" ("``json" +:+ body +:+ "```" +:+ ws2))
      with (("```json" +:+ body +:+ "``") +:+ String "`" ws2)
      by (by rewrite !append_assoc).
    rewrite (rstrip_keep _ ws2 Hws2). by rewrite !append_assoc. }
  change (Text.clean_response (ws1 +:+ Text.json_fence +:+ body +:+ Text.fence +:+ ws2))
    with (Text.replace_from "```" "" 0
            (Text.replace_from "```json" "" 0
               (Text.strip (ws1 +:+ Text.json_fence +:+ body +:+ Text.fence +:+ ws2)))).
  rewrite Hstrip.
  change (Text.replace_from "```json" "" 0 ("```json" +:+ body +:+ "```"))
    with (Text.replace_from "```json" "" 0 (body +:+ "```")).
  rewrite (replace_from_app_free "`" "``json" "" body "```" Hc).
  change (Text.replace_from "```json" "" 0 "```") with "```".
  rewrite (replace_from_app_free "`" "``" "" body "```" Hc).
  change (Text.replace_from "```" "" 0 "```") with "". apply append_empty_r.
Qed.

Lemma clean_response_fenced_witness :
  Text.clean_response " ```json{'country': 'canada'}```
" = "{'country': 'canada'}".
Proof.
  apply (clean_response_fenced " " "{'country': 'canada'}" "
").
  - reflexivity.
  - reflexivity.
  - apply any_in_false with (patterns := ["`"]); [reflexivity | simpl; auto].
Defined.

(** ** The scraper without a usable key *)

(** X15. A scraper made when [GOOGLE_API_KEY] is unset or empty, or whose
    client fails to start with the key, has no model: every [search]
    returns the failure dict with details ["AI model not available."] and
    sends nothing. *)
Theorem scraper_without_model (getenv : option string)
    (start : string -> outcome (string -> outcome json))
    (get : string -> Params -> outcome Response)
    (tables : string -> option string -> outcome (list DataFrame))
    (keeps : bool) (command : string) :
  getenv = None \/ getenv = Some ""
  \/ (exists key e, getenv = Some key /\ start key = Raises e) ->
  run (search (ShorthornApiScraper_init getenv start get tables keeps) command)
  = (Returns (Error "Gagal menafsirkan perintah."
                (Some (JStr "AI model not available."))), []).
Proof.
  intros Hkey. apply search_model_unavailable.
  unfold ShorthornApiScraper_init, AIProcessor_init, or_else. cbn [ai_model].
  destruct Hkey as [-> | [-> | (key & e & -> & Hstart)]]; [done | done |].
  destruct key as [|c key]; [done |]. by rewrite Hstart.
Qed.

Lemma scraper_without_model_witness :
  run (search (ShorthornApiScraper_init (Some "")
                 (fun _ => Returns (fun _ => Returns JNull))
                 (fun _ _ => Returns (sample_response 200 sentinel_page)) (fun _ => no_tables)
                 true)
         "Find all ranches in Texas")
  = (Returns (Error "Gagal menafsirkan perintah."
                (Some (JStr "AI model not available."))), []).
Proof.
  apply (scraper_without_model (Some "")).
  right. left. reflexivity.
Defined.

(** ** The column finder of the tests *)

Section ColumnFinder.

Variable header : list string.

Lemma list_contains_spec x : list_contains x header = true <-> x ∈ header.
Proof.
  unfold list_contains. rewrite existsb_exists. split.
  - intros (y & Hin & Heq). apply String.eqb_eq in Heq as ->. by apply list_elem_of_In.
  - intros Hin. exists x. split; [by apply list_elem_of_In | apply String.eqb_refl].
Qed.

(** [index] gives the first position of the name. *)
Lemma list_index_spec x (l : list string) i :
  list_index x l = Returns i
  <-> l !! i = Some x /\ forall j, (j < i)%nat -> l !! j <> Some x.
Proof.
  revert i. induction l as [|y l IH]; intros i; cbn [list_index].
  - split; [done | by intros [H _]].
  - destruct (String.eqb_spec y x) as [->|Hne].
    + split.
      * intros [= <-]. split; [done | intros j Hj; lia].
      * intros [Hi Hfirst]. destruct i as [|i]; [done |].
        by destruct (Hfirst 0%nat ltac:(lia)).
    + destruct i as [|i].
      * split; [by destruct (list_index x l) | intros [[= ->] _]; done].
      * specialize (IH i). destruct (list_index x l) as [i'|e].
        -- split.
           ++ intros [= ->]. destruct IH as [IH _]. destruct (IH eq_refl) as [Hi Hfirst].
              split; [done |]. intros [|j] Hj; [by intros [= ->] |].
              apply Hfirst. lia.
           ++ intros [Hi Hfirst]. f_equal. f_equal. symmetry.
              assert (Returns (A := nat) i' = Returns i) as [= ->]; [| done].
              apply IH. split; [done |]. intros j Hj. apply (Hfirst (S j)). lia.
        -- split; [done |]. intros [Hi Hfirst].
           assert (Raises (A := nat) e = Returns i); [| done].
           apply IH. split; [done |]. intros j Hj. apply (Hfirst (S j)). lia.
Qed.

Lemma list_index_found x : x ∈ header -> exists i, list_index x header = Returns i.
Proof.
  intros Hin. induction header as [|y l IH]; [by apply elem_of_nil in Hin |].
  cbn [list_index]. destruct (String.eqb_spec y x) as [->|Hne]; [by eexists |].
  apply elem_of_cons in Hin as [->|Hin]; [done |].
  destruct (IH Hin) as [i ->]. by eexists.
Qed.

(** X16. [_find_column_index] never raises, and it answers [None] exactly
    when none of the possible names is a column of the header. *)
Theorem find_column_index_none (possible_names : list string) :
  (exists found, _find_column_index header possible_names = Returns found)
  /\ (_find_column_index header possible_names = Returns None
      <-> forall name, name ∈ possible_names -> name ∉ header).
Proof.
  induction possible_names as [|name rest [IHr IHn]]; cbn [_find_column_index].
  - split; [by eexists |]. split; [intros _ name Hin; by apply elem_of_nil in Hin | done].
  - destruct (list_contains name header) eqn:Hc.
    + apply list_contains_spec in Hc. destruct (list_index_found name Hc) as [i ->].
      split; [by eexists |]. split; [done |].
      intros Hnone. destruct (Hnone name); [by left | done].
    + split; [done |]. rewrite IHn. split.
      * intros Hrest n [->|Hin]%elem_of_cons; [| by apply Hrest].
        intros Hin. apply list_contains_spec in Hin. congruence.
      * intros Hall n Hin. apply Hall. by right.
Qed.

(** X17. When [_find_column_index] answers a position, it is the first
    position, in the header, of the first of the possible names that is a
    column: the order of the possible names decides, not the order of the
    columns. *)
Theorem find_column_index_some (possible_names : list string) (i : nat) :
  _find_column_index header possible_names = Returns (Some i)
  <-> exists before name after,
        possible_names = before ++ name :: after
        /\ Forall (fun n => n ∉ header) before
        /\ header !! i = Some name
        /\ forall j, (j < i)%nat -> header !! j <> Some name.
Proof.
  induction possible_names as [|name rest IH]; cbn [_find_column_index].
  - split; [done |]. intros (before & n & after & Heq & _). by destruct before.
  - destruct (list_contains name header) eqn:Hc.
    + apply list_contains_spec in Hc. destruct (list_index_found name Hc) as [i' Hi'].
      rewrite Hi'. split.
      * intros [= ->]. exists [], name, rest. split; [done |]. split; [done |].
        by apply list_index_spec.
      * intros (before & n & after & Heq & Hbefore & Hi & Hfirst).
        destruct before as [|b before]; simplify_eq/=.
        -- assert (list_index n header = Returns i) as Hidx by (by apply list_index_spec).
           congruence.
        -- apply Forall_cons in Hbefore as [Hb _]. done.
    + rewrite IH. split.
      * intros (before & n & after & -> & Hbefore & Hi & Hfirst).
        exists (name :: before), n, after. split; [done |]. split; [| done].
        constructor; [| done]. intros Hin. apply list_contains_spec in Hin. congruence.
      * intros (before & n & after & Heq & Hbefore & Hi & Hfirst).
        destruct before as [|b before]; simplify_eq/=.
        -- assert (n ∈ header) as Hin by (by eapply list_elem_of_lookup_2).
           apply list_contains_spec in Hin. congruence.
        -- apply Forall_cons in Hbefore as [_ Hbefore]. by exists before, n, after.
Qed.

End ColumnFinder.

Lemma find_column_index_none_witness :
  _find_column_index ["Name"; "City"] ["State"; "ST"] = Returns None.
Proof.
  apply (proj2 (proj2 (find_column_index_none ["Name"; "City"] ["State"; "ST"]))).
  intros name Hin Hcol.
  apply list_elem_of_In in Hin. apply list_elem_of_In in Hcol. simpl in Hin, Hcol.
  destruct Hin as [<- | [<- | []]]; destruct Hcol as [H | [H | []]]; discriminate H.
Defined.

Lemma find_column_index_some_witness :
  _find_column_index ["ST"; "State"; "ST"] ["Prov"; "State"; "ST"] = Returns (Some 1%nat).
Proof.
  apply (proj2 (find_column_index_some ["ST"; "State"; "ST"] ["Prov"; "State"; "ST"] 1%nat)).
  exists ["Prov"], "State", ["ST"]. split; [reflexivity |]. split; [| split].
  - constructor; [| constructor]. intros Hcol. apply list_elem_of_In in Hcol. simpl in Hcol.
    destruct Hcol as [H | [H | [H | []]]]; discriminate H.
  - reflexivity.
  - intros [|j] Hj; [discriminate | lia].
Defined.

(** ** The set-up script *)

Section SetupFacts.

Import Setup.

Lemma file_exists_spec (fs : files) name : file_exists fs name = true <-> is_Some (fs !! name).
Proof. unfold file_exists. apply bool_decide_eq_true. Qed.

Lemma create_env_file_kept (fs : files) content :
  fs !! ".env" = Some content -> create_env_file fs = (true, fs, [EnvExists]).
Proof.
  intros Henv. unfold create_env_file, file_exists. rewrite Henv.
  by rewrite (bool_decide_eq_true_2 (is_Some (Some content))) by (by eexists).
Qed.

Lemma create_env_file_made (fs : files) :
  fs !! ".env" = None ->
  create_env_file fs = (true, <[ ".env" := env_content ]> fs, [CreatingEnv; EnvCreated]).
Proof.
  intros Henv. unfold create_env_file, file_exists. rewrite Henv.
  by rewrite (bool_decide_eq_false_2 (is_Some None)) by (by intros [? ?]).
Qed.

Lemma create_env_file_spec (fs : files) :
  (create_env_file fs).1.1 = true
  /\ (forall content, fs !! ".env" = Some content -> (create_env_file fs).1.2 = fs)
  /\ (fs !! ".env" = None -> (create_env_file fs).1.2 !! ".env" = Some env_content)
  /\ (forall name, name <> ".env" -> (create_env_file fs).1.2 !! name = fs !! name).
Proof.
  destruct (fs !! ".env") as [content|] eqn:Henv.
  - rewrite (create_env_file_kept fs content Henv). by repeat split.
  - rewrite (create_env_file_made fs Henv). cbn [fst snd].
    repeat split; try done.
    + by simplify_map_eq.
    + intros name Hne. by simplify_map_eq.
Qed.

(** X18. [create_env_file] never overwrites: an existing [.env] leaves the
    directory as it is, a missing one is created with the template; no
    other file changes, the answer is always [True], and a second call
    changes nothing. *)
Theorem create_env_file_keeps_existing (fs : files) :
  (create_env_file fs).1.1 = true
  /\ (forall content, fs !! ".env" = Some content -> (create_env_file fs).1.2 = fs)
  /\ (fs !! ".env" = None -> (create_env_file fs).1.2 !! ".env" = Some env_content)
  /\ (forall name, name <> ".env" -> (create_env_file fs).1.2 !! name = fs !! name)
  /\ (create_env_file (create_env_file fs).1.2).1.2 = (create_env_file fs).1.2.
Proof.
  destruct (create_env_file_spec fs) as (Hok & Hkept & Hmade & Hother).
  repeat split; try done.
  destruct (fs !! ".env") as [content|] eqn:Henv.
  - rewrite (Hkept content eq_refl). by rewrite (create_env_file_kept fs content Henv).
  - specialize (Hmade eq_refl).
    by rewrite (create_env_file_kept _ env_content Hmade).
Qed.

Lemma create_env_file_keeps_existing_witness :
  (create_env_file {[ ".env" := "GOOGLE_API_KEY=abc" ]}).1.2
  = {[ ".env" := "GOOGLE_API_KEY=abc" ]}.
Proof.
  apply (proj1 (proj2 (create_env_file_keeps_existing {[ ".env" := "GOOGLE_API_KEY=abc" ]}))
           "GOOGLE_API_KEY=abc").
  reflexivity.
Defined.

Lemma optional_import_spec module available missing :
  (exists m, optional_import module available missing = inr m)
  <-> importable_or_missing module.
Proof.
  unfold optional_import, importable_or_missing. destruct module as [e|].
  - destruct (import_error e) eqn:He.
    + split; [intros _ e' [= <-]; done | by eexists].
    + split; [intros [m Hm]; discriminate | intros H; specialize (H e eq_refl); congruence].
  - split; [done | by eexists].
Qed.

(** X19. The installation test passes exactly when the core modules
    import, none of the three optional imports fails with anything but an
    [ImportError], and the sample table is read without an exception;
    missing optional modules and an empty list of tables do not fail it. *)
Theorem run_test_installation_passes (sys : System) :
  (run_test_installation sys).1 = true
  <-> core_modules sys = None
      /\ importable_or_missing (genai_module sys)
      /\ importable_or_missing (html5lib_module sys)
      /\ importable_or_missing (bs4_module sys)
      /\ exists n, test_tables sys = inr n.
Proof.
  unfold run_test_installation.
  rewrite <- (optional_import_spec (genai_module sys) GenaiAvailable GenaiMissing).
  rewrite <- (optional_import_spec (html5lib_module sys) Html5libAvailable Html5libMissing).
  rewrite <- (optional_import_spec (bs4_module sys) Bs4Available Bs4Missing).
  destruct (core_modules sys) as [e|]; [split; [done | by intros [? _]] |].
  destruct (optional_import (genai_module sys) _ _) as [e|m1];
    [split; [done | by intros (_ & [? ?] & _)] |].
  destruct (optional_import (html5lib_module sys) _ _) as [e|m2];
    [split; [done | by intros (_ & _ & [? ?] & _)] |].
  destruct (optional_import (bs4_module sys) _ _) as [e|m3];
    [split; [done | by intros (_ & _ & _ & [? ?] & _)] |].
  destruct (test_tables sys) as [e|n].
  - split; [done | by intros (_ & _ & _ & _ & [? ?])].
  - split; [| done]. intros _. repeat split; by eexists.
Qed.

Lemma missing_files_none (fs : files) (l : list string) :
  filter (fun file => file_exists fs file = false) l = []
  <-> Forall (fun file => is_Some (fs !! file)) l.
Proof.
  induction l as [|f l IH]; [by rewrite filter_nil |].
  rewrite filter_cons, Forall_cons, <- IH, <- file_exists_spec.
  destruct (decide (file_exists fs f = false)) as [Hf|Hf].
  - split; [done | intros [Hex _]; congruence].
  - split; [intros Hl; split; [by destruct (file_exists fs f) | done] | by intros [_ ?]].
Qed.

Lemma env_report_returns (sys : System) (fs : files) :
  env_readable sys fs -> exists about_env, env_report sys fs = Returns about_env.
Proof.
  intros Hread. unfold env_report.
  destruct (fs !! ".env") as [content|] eqn:Henv; [| by eexists].
  destruct (Hread content Henv) as [text ->]. by eexists.
Qed.

Lemma validate_environment_passes (sys : System) (fs : files) :
  env_readable sys fs ->
  exists ok, (validate_environment sys fs).1 = Returns ok
             /\ (ok = true <-> Forall (fun file => is_Some (fs !! file)) required_files).
Proof.
  intros Hread. unfold validate_environment.
  destruct (env_report_returns sys fs Hread) as [about_env ->].
  pose proof (missing_files_none fs required_files) as Hnone.
  destruct (filter _ required_files); eexists; (split; [reflexivity |]);
    rewrite <- Hnone; done.
Qed.

Lemma install_requirements_returns (sys : System) :
  (forall e, pip sys <> PipCrashed e) ->
  (install_requirements sys).1
  = Returns (match pip sys with PipDone => true | _ => false end).
Proof.
  intros Hpip. unfold install_requirements. destruct (pip sys) as [| |e]; [done | done |].
  by destruct (Hpip e).
Qed.

(** What a run of [main] prints when neither the read of [.env] nor the
    pip run raises: the five steps in the order of the source, then the
    verdict. *)
Lemma main_output (sys : System) (fs : files) ok2 out2 :
  (forall e, pip sys <> PipCrashed e) ->
  validate_environment sys fs = (Returns ok2, out2) ->
  exists verdict,
    (main sys fs).2
    = [Banner] ++ (check_system_requirements sys).2 ++ out2
      ++ (install_requirements sys).2 ++ (create_env_file fs).2
      ++ (run_test_installation sys).2 ++ [Separator] ++ verdict ++ [Footer].
Proof.
  intros Hpip Hval. unfold main. rewrite Hval.
  pose proof (install_requirements_returns sys Hpip) as Hinstall.
  destruct (check_system_requirements sys) as [ok1 out1].
  destruct (install_requirements sys) as [[ok3|e] out3]; [| discriminate Hinstall].
  destruct (create_env_file fs) as [[ok4 fs'] out4].
  destruct (run_test_installation sys) as [ok5 out5].
  cbn [fst snd]. by eexists.
Qed.

(** X20. When an existing [.env] can be read and the pip run does not
    crash, [main] ends its output with the success message and the usage
    examples exactly when Python is 3.8 or newer, the three project files
    are there, pip succeeded and the installation test passed, and with
    the failure message otherwise; the internet check has no part in the
    verdict. *)
Theorem main_verdict (sys : System) (fs : files) :
  env_readable sys fs ->
  (forall e, pip sys <> PipCrashed e) ->
  (ready sys fs ->
   [Separator; SetupSucceeded; UsageExamples; Footer] `suffix_of` (main sys fs).2)
  /\ (~ ready sys fs ->
      [Separator; SetupFailed; Footer] `suffix_of` (main sys fs).2).
Proof.
  intros Hread Hpip. unfold ready, main.
  destruct (validate_environment_passes sys fs Hread) as (ok2 & Hval & Hfiles).
  rewrite <- Hfiles.
  assert (Hcheck : (check_system_requirements sys).1
                   = negb (older_than_3_8 (version_info sys))).
  { unfold check_system_requirements. by destruct (older_than_3_8 _). }
  destruct (check_system_requirements sys) as [ok1 out1].
  destruct (validate_environment sys fs) as [r2 out2].
  cbn [fst] in Hval. subst r2.
  pose proof (install_requirements_returns sys Hpip) as Hinstall.
  destruct (install_requirements sys) as [[ok3|e] out3]; [| discriminate Hinstall].
  destruct (create_env_file fs) as [[ok4 fs'] out4] eqn:Hcreate.
  assert (ok4 = true) as ->.
  { pose proof (proj1 (create_env_file_spec fs)) as H. by rewrite Hcreate in H. }
  destruct (run_test_installation sys) as [ok5 out5].
  cbn [fst snd] in *. injection Hinstall as ->.
  set (head := [Banner] ++ out1 ++ out2 ++ out3 ++ out4 ++ out5).
  split.
  - intros (Hv & -> & -> & ->). rewrite Hv in Hcheck. subst ok1. cbn.
    exists head. unfold head. by rewrite <- !app_assoc.
  - intros Hnot.
    assert (Hfailed :
      (if negb ok5 then false
       else if negb true then false
       else if negb match pip sys with PipDone => true | _ => false end then false
       else if negb ok2 then false
       else if negb ok1 then false else true) = false).
    { destruct ok5, ok2, ok1, (pip sys) eqn:Hp; try reflexivity.
      destruct Hnot. repeat split; [| done..].
      by destruct (older_than_3_8 (version_info sys)). }
    rewrite Hfailed. exists head. unfold head. by rewrite <- !app_assoc.
Qed.

Lemma run_test_installation_passes_witness :
  (run_test_installation sample_system).1 = true.
Proof.
  apply (proj2 (run_test_installation_passes sample_system)).
  split; [reflexivity |].
  split; [intros e [= <-]; reflexivity |].
  split; [intros e H; discriminate H |].
  split; [intros e H; discriminate H |].
  by eexists.
Defined.

Lemma sample_system_reads (fs : files) : env_readable sample_system fs.
Proof. intros content _. by eexists. Qed.

Lemma main_verdict_witness :
  [Separator; SetupSucceeded; UsageExamples; Footer]
    `suffix_of` (main sample_system configured_files).2
  /\ [Separator; SetupFailed; Footer] `suffix_of` (main sample_system ∅).2.
Proof.
  split.
  - apply (proj1 (main_verdict sample_system configured_files
                    ltac:(intros content _; by eexists)
                    ltac:(intros e H; discriminate H))).
    repeat split; try reflexivity. repeat constructor; by eexists.
  - apply (proj2 (main_verdict sample_system ∅
                    ltac:(intros content _; by eexists)
                    ltac:(intros e H; discriminate H))).
    intros (_ & Hfiles & _). apply Forall_cons in Hfiles as [[content Hc] _].
    rewrite lookup_empty in Hc. discriminate Hc.
Defined.

Lemma main_files (sys : System) (fs : files) :
  env_readable sys fs ->
  (forall e, pip sys <> PipCrashed e) ->
  (main sys fs).1 = (Returns tt, (create_env_file fs).1.2).
Proof.
  intros Hread Hpip. unfold main.
  destruct (validate_environment_passes sys fs Hread) as (ok2 & Hval & _).
  destruct (check_system_requirements sys) as [ok1 out1].
  destruct (validate_environment sys fs) as [r2 out2].
  cbn [fst] in Hval. subst r2.
  unfold install_requirements.
  destruct (pip sys) as [|e|e]; [| | by destruct (Hpip e)];
    destruct (create_env_file fs) as [[ok4 fs'] out4];
    destruct (run_test_installation sys) as [ok5 out5]; reflexivity.
Qed.

(** X21. When an existing [.env] can be read and the pip run does not
    crash, [main] returns and leaves a [.env] in the directory whatever
    else failed: an existing one is kept as it is, a missing one is
    created, and no other file changes. *)
Theorem main_leaves_env (sys : System) (fs : files) :
  env_readable sys fs ->
  (forall e, pip sys <> PipCrashed e) ->
  (main sys fs).1.1 = Returns tt
  /\ is_Some ((main sys fs).1.2 !! ".env")
  /\ (forall content, fs !! ".env" = Some content -> (main sys fs).1.2 = fs)
  /\ (forall name, name <> ".env" -> (main sys fs).1.2 !! name = fs !! name).
Proof.
  intros Hread Hpip. rewrite (main_files sys fs Hread Hpip). cbn [fst snd].
  destruct (create_env_file_spec fs) as (_ & Hkept & Hmade & Hother).
  repeat split; [| done | done].
  destruct (fs !! ".env") as [content|] eqn:Henv.
  - rewrite (Hkept content eq_refl). by rewrite Henv.
  - by rewrite Hmade.
Qed.

Lemma main_leaves_env_witness :
  (main sample_system configured_files).1.1 = Returns tt
  /\ (main sample_system configured_files).1.2 = configured_files
  /\ (main sample_system configured_files).1.2 !! ".env" = Some "GOOGLE_API_KEY=abc".
Proof.
  destruct (main_leaves_env sample_system configured_files
              ltac:(intros content _; by eexists)
              ltac:(intros e H; discriminate H)) as (Hret & _ & Hkept & _).
  split; [exact Hret |].
  split; [exact (Hkept "GOOGLE_API_KEY=abc" eq_refl) |].
  rewrite (Hkept "GOOGLE_API_KEY=abc" eq_refl). reflexivity.
Defined.

(** X22. [main] validates before it creates [.env]: on a run in a
    directory without [.env] the validation step prints its heading and
    the verdict on the project files, nothing about the key, and the file
    is created after the pip step; on the next run the validation step
    reports the placeholder key, and the file is found to exist. The
    template read back is the template written. *)
Theorem rerun_reports_placeholder (sys : System) (fs : files) :
  (forall e, pip sys <> PipCrashed e) ->
  fs !! ".env" = None ->
  read_text sys env_content = Returns env_content ->
  (exists verdict rest,
      (main sys fs).2
      = [Banner] ++ (check_system_requirements sys).2
        ++ [ValidatingEnvironment; verdict]
        ++ (install_requirements sys).2 ++ [CreatingEnv; EnvCreated] ++ rest
      /\ (verdict = AllFilesPresent \/ exists names, verdict = MissingFiles names))
  /\ (exists verdict rest,
        (main sys (main sys fs).1.2).2
        = [Banner] ++ (check_system_requirements sys).2
          ++ [ValidatingEnvironment; EnvHasPlaceholder; verdict]
          ++ (install_requirements sys).2 ++ [EnvExists] ++ rest).
Proof.
  intros Hpip Henv Htemplate.
  assert (Hread : env_readable sys fs).
  { intros content Hc. rewrite Henv in Hc. discriminate Hc. }
  split.
  - assert (Hval : exists ok2 verdict,
              validate_environment sys fs = (Returns ok2, [ValidatingEnvironment; verdict])
              /\ (verdict = AllFilesPresent \/ exists names, verdict = MissingFiles names)).
    { unfold validate_environment, env_report. rewrite Henv.
      destruct (filter _ required_files); do 2 eexists; (split; [reflexivity |]);
        [by left | right; by eexists]. }
    destruct Hval as (ok2 & verdict & Hval & Hverdict).
    destruct (main_output sys fs ok2 _ Hpip Hval) as [final ->].
    rewrite (create_env_file_made fs Henv). cbn [snd].
    exists verdict. eexists. split; [| exact Hverdict].
    reflexivity.
  - rewrite (main_files sys fs Hread Hpip), (create_env_file_made fs Henv). cbn [fst snd].
    set (fs' := <[ ".env" := env_content ]> fs).
    assert (Henv' : fs' !! ".env" = Some env_content) by (unfold fs'; by simplify_map_eq).
    assert (Hval : exists ok2 verdict,
              validate_environment sys fs'
              = (Returns ok2, [ValidatingEnvironment; EnvHasPlaceholder; verdict])).
    { unfold validate_environment, env_report. rewrite Henv', Htemplate.
      change (Str.contains "your_google_ai_api_key_here" env_content) with true.
      destruct (filter _ required_files); by do 2 eexists. }
    destruct Hval as (ok2 & verdict & Hval).
    destruct (main_output sys fs' ok2 _ Hpip Hval) as [final ->].
    rewrite (create_env_file_kept fs' env_content Henv'). cbn [snd].
    exists verdict. eexists. reflexivity.
Qed.

Lemma rerun_reports_placeholder_witness :
  (exists verdict rest,
      (main sample_system sample_files).2
      = [Banner] ++ (check_system_requirements sample_system).2
        ++ [ValidatingEnvironment; verdict]
        ++ (install_requirements sample_system).2 ++ [CreatingEnv; EnvCreated] ++ rest
      /\ (verdict = AllFilesPresent \/ exists names, verdict = MissingFiles names))
  /\ (exists verdict rest,
        (main sample_system (main sample_system sample_files).1.2).2
        = [Banner] ++ (check_system_requirements sample_system).2
          ++ [ValidatingEnvironment; EnvHasPlaceholder; verdict]
          ++ (install_requirements sample_system).2 ++ [EnvExists] ++ rest).
Proof.
  apply (rerun_reports_placeholder sample_system sample_files).
  - intros e H. discriminate H.
  - reflexivity.
  - reflexivity.
Defined.

(** X23. The read of an existing [.env] is not guarded: when it raises,
    [main] raises the same exception right after the heading of the
    validation step, before the pip run, with the directory unchanged and
    no verdict printed. *)
Theorem main_unreadable_env (sys : System) (fs : files) content e :
  fs !! ".env" = Some content ->
  read_text sys content = Raises e ->
  main sys fs
  = (Raises e, fs, [Banner] ++ (check_system_requirements sys).2 ++ [ValidatingEnvironment]).
Proof.
  intros Henv Hraise. unfold main, validate_environment, env_report.
  rewrite Henv, Hraise.
  by destruct (check_system_requirements sys) as [ok1 out1].
Qed.

Lemma main_unreadable_env_witness :
  main strict_system configured_files
  = (Raises undecodable, configured_files,
     [Banner] ++ (check_system_requirements strict_system).2 ++ [ValidatingEnvironment]).
Proof.
  apply (main_unreadable_env strict_system configured_files "GOOGLE_API_KEY=abc").
  - reflexivity.
  - reflexivity.
Defined.

End SetupFacts.
